(** * cryptorand: OS-backed secure random source

    A shallow embedding of [cryptorand.h] (the [cryptorand_init],
    [cryptorand_uninit] and [cryptorand_generate] entry points together with
    their Win32 and /dev/urandom backends) and the properties of its
    backend-selection, failure and release logic.

    Modelling choices:
    - pointers, handles and entry-point addresses are integers, [0] is NULL;
    - [cryptorand* pRNG] is [option] of the structure ([None] is NULL) and the
      structure is threaded explicitly through the calls that write it;
    - the destination buffer lives in a byte-addressed memory [Z -> byte],
      disjoint from the structure;
    - the operating system is an arbitrary function from the history of calls
      made so far and the present call to a response; every call the code
      makes is appended to the history, so that leaks and missing calls are
      visible;
    - calling through a NULL entry point is a fault ([None] in the monad). *)

From Stdlib Require Import ZArith List String Bool Lia.
From Stdlib Require Import Strings.Byte.
Import ListNotations.

Local Open Scope Z_scope.

(* ------------------------------------------------------------------------- *)
(** ** Result codes                                                           *)
(* ------------------------------------------------------------------------- *)

Inductive cryptorand_result : Set :=
| CRYPTORAND_SUCCESS
| CRYPTORAND_ERROR
| CRYPTORAND_INVALID_ARGS
| CRYPTORAND_INVALID_OPERATION
| CRYPTORAND_TOO_BIG
| CRYPTORAND_NOT_IMPLEMENTED.

(** The enumerators' integer values. *)
Definition result_code (r : cryptorand_result) : Z :=
  match r with
  | CRYPTORAND_SUCCESS           => 0
  | CRYPTORAND_ERROR             => -1
  | CRYPTORAND_INVALID_ARGS      => -2
  | CRYPTORAND_INVALID_OPERATION => -3
  | CRYPTORAND_TOO_BIG           => -11
  | CRYPTORAND_NOT_IMPLEMENTED   => -29
  end.

Definition is_success (r : cryptorand_result) : bool :=
  result_code r =? 0.

(* ------------------------------------------------------------------------- *)
(** ** Build configuration                                                    *)
(* ------------------------------------------------------------------------- *)

(** Which of [CRYPTORAND_WIN32] / [CRYPTORAND_URANDOM] the preprocessor
    defined ([_WIN32] and [__linux__] are never defined together). *)
Inductive platform : Set :=
| PLATFORM_WIN32
| PLATFORM_URANDOM
| PLATFORM_NONE.

(* ------------------------------------------------------------------------- *)
(** ** The [cryptorand] structure                                             *)
(* ------------------------------------------------------------------------- *)

Record cryptorand_win32 : Set := mk_win32 {
  hBcryptDLL                   : Z;  (* If set, using BCryptGenRandom() *)
  BCryptOpenAlgorithmProvider  : Z;
  BCryptCloseAlgorithmProvider : Z;
  BCryptGenRandom              : Z;
  hAlgorithm                   : Z;  (* Used with BCryptGenRandom() *)
  hAdvapiDLL                   : Z;  (* If set, using CryptGenRandom() *)
  CryptAcquireContextW         : Z;
  CryptReleaseContext          : Z;
  CryptGenRandom               : Z;
  hProvider                    : Z   (* Used with CryptGenRandom() *)
}.

Record cryptorand_urandom : Set := mk_urandom {
  pFile : Z  (* The file handle returned by open(). *)
}.

Definition cryptorand (p : platform) : Set :=
  match p with
  | PLATFORM_WIN32   => cryptorand_win32
  | PLATFORM_URANDOM => cryptorand_urandom
  | PLATFORM_NONE    => unit
  end.

(** Field assignments [pRNG->win32.f = v]. *)
Definition set_hBcryptDLL (v : Z) (s : cryptorand_win32) :=
  mk_win32 v (BCryptOpenAlgorithmProvider s) (BCryptCloseAlgorithmProvider s)
           (BCryptGenRandom s) (hAlgorithm s) (hAdvapiDLL s)
           (CryptAcquireContextW s) (CryptReleaseContext s) (CryptGenRandom s)
           (hProvider s).
Definition set_BCryptOpenAlgorithmProvider (v : Z) (s : cryptorand_win32) :=
  mk_win32 (hBcryptDLL s) v (BCryptCloseAlgorithmProvider s)
           (BCryptGenRandom s) (hAlgorithm s) (hAdvapiDLL s)
           (CryptAcquireContextW s) (CryptReleaseContext s) (CryptGenRandom s)
           (hProvider s).
Definition set_BCryptCloseAlgorithmProvider (v : Z) (s : cryptorand_win32) :=
  mk_win32 (hBcryptDLL s) (BCryptOpenAlgorithmProvider s) v
           (BCryptGenRandom s) (hAlgorithm s) (hAdvapiDLL s)
           (CryptAcquireContextW s) (CryptReleaseContext s) (CryptGenRandom s)
           (hProvider s).
Definition set_BCryptGenRandom (v : Z) (s : cryptorand_win32) :=
  mk_win32 (hBcryptDLL s) (BCryptOpenAlgorithmProvider s)
           (BCryptCloseAlgorithmProvider s) v (hAlgorithm s) (hAdvapiDLL s)
           (CryptAcquireContextW s) (CryptReleaseContext s) (CryptGenRandom s)
           (hProvider s).
Definition set_hAlgorithm (v : Z) (s : cryptorand_win32) :=
  mk_win32 (hBcryptDLL s) (BCryptOpenAlgorithmProvider s)
           (BCryptCloseAlgorithmProvider s) (BCryptGenRandom s) v
           (hAdvapiDLL s) (CryptAcquireContextW s) (CryptReleaseContext s)
           (CryptGenRandom s) (hProvider s).
Definition set_hAdvapiDLL (v : Z) (s : cryptorand_win32) :=
  mk_win32 (hBcryptDLL s) (BCryptOpenAlgorithmProvider s)
           (BCryptCloseAlgorithmProvider s) (BCryptGenRandom s) (hAlgorithm s)
           v (CryptAcquireContextW s) (CryptReleaseContext s)
           (CryptGenRandom s) (hProvider s).
Definition set_CryptAcquireContextW (v : Z) (s : cryptorand_win32) :=
  mk_win32 (hBcryptDLL s) (BCryptOpenAlgorithmProvider s)
           (BCryptCloseAlgorithmProvider s) (BCryptGenRandom s) (hAlgorithm s)
           (hAdvapiDLL s) v (CryptReleaseContext s) (CryptGenRandom s)
           (hProvider s).
Definition set_CryptReleaseContext (v : Z) (s : cryptorand_win32) :=
  mk_win32 (hBcryptDLL s) (BCryptOpenAlgorithmProvider s)
           (BCryptCloseAlgorithmProvider s) (BCryptGenRandom s) (hAlgorithm s)
           (hAdvapiDLL s) (CryptAcquireContextW s) v (CryptGenRandom s)
           (hProvider s).
Definition set_CryptGenRandom (v : Z) (s : cryptorand_win32) :=
  mk_win32 (hBcryptDLL s) (BCryptOpenAlgorithmProvider s)
           (BCryptCloseAlgorithmProvider s) (BCryptGenRandom s) (hAlgorithm s)
           (hAdvapiDLL s) (CryptAcquireContextW s) (CryptReleaseContext s) v
           (hProvider s).
Definition set_hProvider (v : Z) (s : cryptorand_win32) :=
  mk_win32 (hBcryptDLL s) (BCryptOpenAlgorithmProvider s)
           (BCryptCloseAlgorithmProvider s) (BCryptGenRandom s) (hAlgorithm s)
           (hAdvapiDLL s) (CryptAcquireContextW s) (CryptReleaseContext s)
           (CryptGenRandom s) v.

(** [CRYPTORAND_ZERO_OBJECT]: every field of the structure becomes zero. *)
Definition zero_win32 : cryptorand_win32 := mk_win32 0 0 0 0 0 0 0 0 0 0.
Definition zero_urandom : cryptorand_urandom := mk_urandom 0.

Definition CRYPTORAND_ZERO_OBJECT (p : platform) : cryptorand p :=
  match p with
  | PLATFORM_WIN32   => zero_win32
  | PLATFORM_URANDOM => zero_urandom
  | PLATFORM_NONE    => tt
  end.

(* ------------------------------------------------------------------------- *)
(** ** Memory                                                                 *)
(* ------------------------------------------------------------------------- *)

Definition mem : Type := Z -> byte.

Definition in_range (p n a : Z) : bool := (p <=? a) && (a <? p + n).

(** [memset(p, 0, sz)]. *)
Definition CRYPTORAND_ZERO_MEMORY (m : mem) (p sz : Z) : mem :=
  fun a => if in_range p sz a then x00 else m a.

(** The callee stores [n] bytes, [data 0 .. data (n-1)], at [p]. *)
Definition store_bytes (m : mem) (p n : Z) (data : Z -> byte) : mem :=
  fun a => if in_range p n a then data (a - p) else m a.

(* ------------------------------------------------------------------------- *)
(** ** The operating system                                                   *)
(* ------------------------------------------------------------------------- *)

(** Calls that leave the program.  Calls made through a resolved entry point
    carry the address they were made through. *)
Inductive os_call : Set :=
| LoadLibraryW (name : string)
| GetProcAddress (hModule : Z) (name : string)
| FreeLibrary (hModule : Z)
| call_BCryptOpenAlgorithmProvider (proc : Z) (pszAlgId : string) (dwFlags : Z)
| call_BCryptCloseAlgorithmProvider (proc hAlg dwFlags : Z)
| call_BCryptGenRandom (proc hAlg pbBuffer cbBuffer dwFlags : Z)
| call_CryptAcquireContextW (proc dwProvType dwFlags : Z)
| call_CryptReleaseContext (proc hProv dwFlags : Z)
| call_CryptGenRandom (proc hProv dwLen pbBuffer : Z)
| fopen (path mode : string)
| fclose (stream : Z)
| fread (ptr size count stream : Z).

(** What a call gives back: its return value, the handle stored through an
    out-pointer argument, and the bytes stored into a buffer argument. *)
Record os_response : Type := mk_response {
  ret_val    : Z;
  out_handle : Z;
  out_bytes  : Z -> byte
}.

(** Calls made so far, most recent first. *)
Definition history : Set := list os_call.

Definition os : Type := history -> os_call -> os_response.

(* ------------------------------------------------------------------------- *)
(** ** A monad for calls into the OS that may fault                           *)
(* ------------------------------------------------------------------------- *)

Definition M (A : Type) : Type := history -> option (A * history).

Definition ret {A} (a : A) : M A := fun h => Some (a, h).

Definition bind {A B} (c : M A) (k : A -> M B) : M B :=
  fun h => match c h with
           | Some (a, h') => k a h'
           | None => None
           end.

Definition fault {A} : M A := fun _ => None.

Notation "x <- c ;; k" := (bind c (fun x => k))
  (at level 61, c at next level, right associativity).
Notation "c ;;; k" := (bind c (fun _ => k))
  (at level 61, right associativity).

Definition syscall (o : os) (c : os_call) : M os_response :=
  fun h => Some (o h c, c :: h).

(** A call through a function pointer held in the structure. *)
Definition call_proc (o : os) (proc : Z) (c : os_call) : M os_response :=
  if proc =? 0 then fault else syscall o c.

Definition NULL : Z := 0.
Definition is_null (v : Z) : bool := v =? NULL.

(* ------------------------------------------------------------------------- *)
(** ** Win32 backend                                                          *)
(* ------------------------------------------------------------------------- *)

Definition CRYPTORAND_BCRYPT_RNG_ALGORITHM : string := "RNG".
Definition CRYPTORAND_PROV_RSA_FULL : Z := 1.
Definition CRYPTORAND_CRYPT_VERIFYCONTEXT : Z := 0xF0000000.
Definition CRYPTORAND_CRYPT_SILENT : Z := 0x00000040.

(** The tail of [cryptorand_init__win32]: both services are unusable. *)
Definition cryptorand_init__win32_unusable
  : M (cryptorand_result * cryptorand_win32) :=
  let pRNG := zero_win32 in
  ret (CRYPTORAND_ERROR, pRNG).

(** The second block of [cryptorand_init__win32]: CryptGenRandom(). *)
Definition cryptorand_init__win32_advapi (o : os)
  : M (cryptorand_result * cryptorand_win32) :=
  let pRNG := zero_win32 in                                 (* For safety. *)
  r <- syscall o (LoadLibraryW "advapi32.dll") ;;
  let hAdvapi := ret_val r in
  if negb (is_null hAdvapi) then
    let pRNG := set_hAdvapiDLL hAdvapi pRNG in
    r1 <- syscall o (GetProcAddress hAdvapi "CryptAcquireContextW") ;;
    let pRNG := set_CryptAcquireContextW (ret_val r1) pRNG in
    r2 <- syscall o (GetProcAddress hAdvapi "CryptReleaseContext") ;;
    let pRNG := set_CryptReleaseContext (ret_val r2) pRNG in
    r3 <- syscall o (GetProcAddress hAdvapi "CryptGenRandom") ;;
    let pRNG := set_CryptGenRandom (ret_val r3) pRNG in
    if negb (is_null (CryptAcquireContextW pRNG))
       && negb (is_null (CryptReleaseContext pRNG))
       && negb (is_null (CryptGenRandom pRNG)) then
      r4 <- call_proc o (CryptAcquireContextW pRNG)
              (call_CryptAcquireContextW (CryptAcquireContextW pRNG)
                 CRYPTORAND_PROV_RSA_FULL
                 (Z.lor CRYPTORAND_CRYPT_VERIFYCONTEXT CRYPTORAND_CRYPT_SILENT)) ;;
      let pRNG := set_hProvider (out_handle r4) pRNG in
      if negb (ret_val r4 =? 0) then
        ret (CRYPTORAND_SUCCESS, pRNG)
      else
        cryptorand_init__win32_unusable   (* Failed to acquire context. *)
    else
      cryptorand_init__win32_unusable     (* Failed to retrieve function addresses. *)
  else
    cryptorand_init__win32_unusable.      (* Failed to load DLL. *)

Definition cryptorand_init__win32 (o : os) (pRNG : cryptorand_win32)
  : M (cryptorand_result * cryptorand_win32) :=
  let pRNG := zero_win32 in                                 (* For safety. *)
  r <- syscall o (LoadLibraryW "bcrypt.dll") ;;
  let hBcrypt := ret_val r in
  if negb (is_null hBcrypt) then
    let pRNG := set_hBcryptDLL hBcrypt pRNG in
    r1 <- syscall o (GetProcAddress hBcrypt "BCryptOpenAlgorithmProvider") ;;
    let pRNG := set_BCryptOpenAlgorithmProvider (ret_val r1) pRNG in
    r2 <- syscall o (GetProcAddress hBcrypt "BCryptCloseAlgorithmProvider") ;;
    let pRNG := set_BCryptCloseAlgorithmProvider (ret_val r2) pRNG in
    r3 <- syscall o (GetProcAddress hBcrypt "BCryptGenRandom") ;;
    let pRNG := set_BCryptGenRandom (ret_val r3) pRNG in
    if negb (is_null (BCryptOpenAlgorithmProvider pRNG))
       && negb (is_null (BCryptCloseAlgorithmProvider pRNG))
       && negb (is_null (BCryptGenRandom pRNG)) then
      r4 <- call_proc o (BCryptOpenAlgorithmProvider pRNG)
              (call_BCryptOpenAlgorithmProvider (BCryptOpenAlgorithmProvider pRNG)
                 CRYPTORAND_BCRYPT_RNG_ALGORITHM 0) ;;
      let pRNG := set_hAlgorithm (out_handle r4) pRNG in
      if ret_val r4 =? 0 then
        ret (CRYPTORAND_SUCCESS, pRNG)
      else
        cryptorand_init__win32_advapi o   (* Failed to open provider. *)
    else
      cryptorand_init__win32_advapi o     (* Failed to retrieve function addresses. *)
  else
    cryptorand_init__win32_advapi o.      (* Failed to load DLL. *)

Definition cryptorand_uninit__win32 (o : os) (pRNG : cryptorand_win32) : M unit :=
  (if negb (is_null (hAlgorithm pRNG)) then
     call_proc o (BCryptCloseAlgorithmProvider pRNG)
       (call_BCryptCloseAlgorithmProvider (BCryptCloseAlgorithmProvider pRNG)
          (hAlgorithm pRNG) 0) ;;; ret tt
   else if negb (is_null (hProvider pRNG)) then
     call_proc o (CryptReleaseContext pRNG)
       (call_CryptReleaseContext (CryptReleaseContext pRNG) (hProvider pRNG) 0) ;;; ret tt
   else ret tt) ;;;
  (if negb (is_null (hBcryptDLL pRNG)) then
     syscall o (FreeLibrary (hBcryptDLL pRNG)) ;;; ret tt
   else ret tt) ;;;
  (if negb (is_null (hAdvapiDLL pRNG)) then
     syscall o (FreeLibrary (hAdvapiDLL pRNG)) ;;; ret tt
   else ret tt).

(** [(ULONG)byteCount] and [(DWORD)byteCount]. *)
Definition to_ULONG (v : Z) : Z := v mod 2 ^ 32.

Definition cryptorand_generate__win32 (o : os) (pRNG : cryptorand_win32)
    (m : mem) (pBufferOut byteCount : Z) : M (cryptorand_result * mem) :=
  if byteCount >? 0xFFFFFFFF then
    ret (CRYPTORAND_TOO_BIG, m)
  else if negb (is_null (hAlgorithm pRNG)) then
    r <- call_proc o (BCryptGenRandom pRNG)
           (call_BCryptGenRandom (BCryptGenRandom pRNG) (hAlgorithm pRNG)
              pBufferOut (to_ULONG byteCount) 0) ;;
    let m := store_bytes m pBufferOut (to_ULONG byteCount) (out_bytes r) in
    if negb (ret_val r =? 0) then ret (CRYPTORAND_ERROR, m)
    else ret (CRYPTORAND_SUCCESS, m)
  else if negb (is_null (hProvider pRNG)) then
    r <- call_proc o (CryptGenRandom pRNG)
           (call_CryptGenRandom (CryptGenRandom pRNG) (hProvider pRNG)
              (to_ULONG byteCount) pBufferOut) ;;
    let m := store_bytes m pBufferOut (to_ULONG byteCount) (out_bytes r) in
    if ret_val r =? 0 then ret (CRYPTORAND_ERROR, m)
    else ret (CRYPTORAND_SUCCESS, m)
  else
    ret (CRYPTORAND_SUCCESS, m).

(* ------------------------------------------------------------------------- *)
(** ** /dev/urandom backend                                                   *)
(* ------------------------------------------------------------------------- *)

(** [fread(ptr, size, count, stream)]: the C library reads between [0] and
    [count] whole elements, stores them at [ptr] and returns how many. *)
Definition fread_count (returned count : Z) : Z :=
  Z.max 0 (Z.min returned count).

Definition libc_fread (o : os) (m : mem) (ptr size count stream : Z)
  : M (Z * mem) :=
  r <- syscall o (fread ptr size count stream) ;;
  let n := fread_count (ret_val r) count in
  ret (n, store_bytes m ptr (n * size) (out_bytes r)).

Definition cryptorand_init__urandom (o : os) (pRNG : cryptorand_urandom)
  : M (cryptorand_result * cryptorand_urandom) :=
  r <- syscall o (fopen "/dev/urandom" "rb") ;;
  let pRNG := mk_urandom (ret_val r) in
  if is_null (pFile pRNG) then ret (CRYPTORAND_ERROR, pRNG)
  else ret (CRYPTORAND_SUCCESS, pRNG).

Definition cryptorand_uninit__urandom (o : os) (pRNG : cryptorand_urandom) : M unit :=
  if is_null (pFile pRNG) then ret tt
  else syscall o (fclose (pFile pRNG)) ;;; ret tt.

Definition cryptorand_generate__urandom (o : os) (pRNG : cryptorand_urandom)
    (m : mem) (pBufferOut byteCount : Z) : M (cryptorand_result * mem) :=
  if is_null (pFile pRNG) then
    ret (CRYPTORAND_INVALID_OPERATION, m)
  else
    rd <- libc_fread o m pBufferOut 1 byteCount (pFile pRNG) ;;
    let '(bytesRead, m) := rd in
    if bytesRead <? byteCount then
      ret (CRYPTORAND_ERROR, m)  (* Wasn't able to read all the data. *)
    else
      ret (CRYPTORAND_SUCCESS, m).

(* ------------------------------------------------------------------------- *)
(** ** Public API                                                             *)
(* ------------------------------------------------------------------------- *)

Definition init_backend (p : platform) (o : os)
  : cryptorand p -> M (cryptorand_result * cryptorand p) :=
  match p with
  | PLATFORM_WIN32   => cryptorand_init__win32 o
  | PLATFORM_URANDOM => cryptorand_init__urandom o
  | PLATFORM_NONE    => fun pRNG => ret (CRYPTORAND_NOT_IMPLEMENTED, pRNG)
  end.

Definition uninit_backend (p : platform) (o : os) : cryptorand p -> M unit :=
  match p with
  | PLATFORM_WIN32   => cryptorand_uninit__win32 o
  | PLATFORM_URANDOM => cryptorand_uninit__urandom o
  | PLATFORM_NONE    => fun _ => ret tt          (* Not implemented. *)
  end.

Definition generate_backend (p : platform) (o : os)
  : cryptorand p -> mem -> Z -> Z -> M (cryptorand_result * mem) :=
  match p with
  | PLATFORM_WIN32   => cryptorand_generate__win32 o
  | PLATFORM_URANDOM => cryptorand_generate__urandom o
  | PLATFORM_NONE    => fun _ m _ _ => ret (CRYPTORAND_NOT_IMPLEMENTED, m)
  end.

Definition cryptorand_init (p : platform) (o : os) (pRNG : option (cryptorand p))
  : M (cryptorand_result * option (cryptorand p)) :=
  match pRNG with
  | None => ret (CRYPTORAND_INVALID_ARGS, None)
  | Some _ =>
      let obj := CRYPTORAND_ZERO_OBJECT p in
      rs <- init_backend p o obj ;;
      let '(result, obj) := rs in
      if negb (is_success result) then
        (* Make sure the caller is given a blank object on failure. *)
        ret (result, Some (CRYPTORAND_ZERO_OBJECT p))
      else
        ret (result, Some obj)
  end.

Definition cryptorand_uninit (p : platform) (o : os) (pRNG : option (cryptorand p))
  : M (option (cryptorand p)) :=
  match pRNG with
  | None => ret None
  | Some obj =>
      uninit_backend p o obj ;;;
      ret (Some (CRYPTORAND_ZERO_OBJECT p))
  end.

Definition cryptorand_generate (p : platform) (o : os)
    (pRNG : option (cryptorand p)) (m : mem) (pBufferOut byteCount : Z)
  : M (cryptorand_result * mem) :=
  match pRNG with
  | None => ret (CRYPTORAND_INVALID_ARGS, m)
  | Some obj =>
      if is_null pBufferOut then ret (CRYPTORAND_INVALID_ARGS, m)
      else
        rm <- generate_backend p o obj m pBufferOut byteCount ;;
        let '(result, m) := rm in
        if negb (is_success result) then
          ret (result, CRYPTORAND_ZERO_MEMORY m pBufferOut byteCount)
        else
          ret (result, m)
  end.

(* ------------------------------------------------------------------------- *)
(** ** States of the source                                                   *)
(* ------------------------------------------------------------------------- *)

(** Which service the structure says is in use.  On Win32 the structure's own
    comments give the test: [hBcryptDLL] "if set, using BCryptGenRandom()",
    [hAdvapiDLL] "if set, using CryptGenRandom()".  With /dev/urandom the
    stream is the only service. *)
Definition primary_active (p : platform) : cryptorand p -> bool :=
  match p with
  | PLATFORM_WIN32   => fun s => negb (is_null (hBcryptDLL s))
  | PLATFORM_URANDOM => fun s => negb (is_null (pFile s))
  | PLATFORM_NONE    => fun _ => false
  end.

Definition fallback_active (p : platform) : cryptorand p -> bool :=
  match p with
  | PLATFORM_WIN32   => fun s => negb (is_null (hAdvapiDLL s))
  | PLATFORM_URANDOM => fun _ => false
  | PLATFORM_NONE    => fun _ => false
  end.

Definition uninitialized (p : platform) : cryptorand p -> bool :=
  match p with
  | PLATFORM_WIN32   => fun s => is_null (hBcryptDLL s) && is_null (hAdvapiDLL s)
  | PLATFORM_URANDOM => fun s => is_null (pFile s)
  | PLATFORM_NONE    => fun _ => true
  end.

Definition exactly_one (a b c : bool) : bool :=
  match a, b, c with
  | true, false, false | false, true, false | false, false, true => true
  | _, _, _ => false
  end.

(** The handles through which random bytes are requested and which release
    closes: [hAlgorithm], [hProvider], [pFile]. *)
Definition backend_handles (p : platform) : cryptorand p -> list Z :=
  match p with
  | PLATFORM_WIN32   => fun s => [hAlgorithm s; hProvider s]
  | PLATFORM_URANDOM => fun s => [pFile s]
  | PLATFORM_NONE    => fun _ => []
  end.

Definition live_handles (p : platform) (s : cryptorand p) : nat :=
  List.length (List.filter (fun h => negb (is_null h)) (backend_handles p s)).

(** Everything a service holds once set up: its module and its provider or
    context on Win32, the stream with /dev/urandom. *)
Definition backend_resources (p : platform) : cryptorand p -> list (list Z) :=
  match p with
  | PLATFORM_WIN32   => fun s => [[hBcryptDLL s; hAlgorithm s];
                                  [hAdvapiDLL s; hProvider s]]
  | PLATFORM_URANDOM => fun s => [[pFile s]]
  | PLATFORM_NONE    => fun _ => []
  end.

(** The number of services of which the structure holds anything. *)
Definition live_backends (p : platform) (s : cryptorand p) : nat :=
  List.length
    (List.filter (List.existsb (fun h => negb (is_null h)))
       (backend_resources p s)).

(** The three shapes the Win32 member takes. *)
Definition win32_blank (s : cryptorand_win32) : Prop := s = zero_win32.

Definition win32_bcrypt (s : cryptorand_win32) : Prop :=
  hBcryptDLL s <> 0 /\ BCryptOpenAlgorithmProvider s <> 0 /\
  BCryptCloseAlgorithmProvider s <> 0 /\ BCryptGenRandom s <> 0 /\
  hAdvapiDLL s = 0 /\ CryptAcquireContextW s = 0 /\
  CryptReleaseContext s = 0 /\ CryptGenRandom s = 0 /\ hProvider s = 0.

Definition win32_advapi (s : cryptorand_win32) : Prop :=
  hAdvapiDLL s <> 0 /\ CryptAcquireContextW s <> 0 /\
  CryptReleaseContext s <> 0 /\ CryptGenRandom s <> 0 /\
  hBcryptDLL s = 0 /\ BCryptOpenAlgorithmProvider s = 0 /\
  BCryptCloseAlgorithmProvider s = 0 /\ BCryptGenRandom s = 0 /\
  hAlgorithm s = 0.

(** A held handle comes with the entry point that closes it: what
    [cryptorand_uninit__win32] needs in order not to call through NULL. *)
Definition closable (p : platform) : cryptorand p -> Prop :=
  match p with
  | PLATFORM_WIN32 => fun s : cryptorand_win32 =>
      (hAlgorithm s <> 0 -> BCryptCloseAlgorithmProvider s <> 0) /\
      (hAlgorithm s = 0 -> hProvider s <> 0 -> CryptReleaseContext s <> 0)
  | PLATFORM_URANDOM => fun _ => True
  | PLATFORM_NONE    => fun _ => True
  end.

(** A source object: blank, or set up for one service with the other
    service's fields blank. *)
Definition source_inv (p : platform) : cryptorand p -> Prop :=
  match p with
  | PLATFORM_WIN32   => fun s => win32_blank s \/ win32_bcrypt s \/ win32_advapi s
  | PLATFORM_URANDOM => fun _ => True
  | PLATFORM_NONE    => fun _ => True
  end.

(* ------------------------------------------------------------------------- *)
(** ** Sequences of operations on one source                                  *)
(* ------------------------------------------------------------------------- *)

Inductive operation : Set :=
| op_init
| op_generate (pBufferOut byteCount : Z)
| op_uninit.

(** One call with [&rng] as the source; the structure and the memory are
    carried to the next call. *)
Definition step (p : platform) (o : os) (op : operation)
    (st : cryptorand p * mem) : M (cryptorand p * mem) :=
  let '(rng, m) := st in
  match op with
  | op_init =>
      rs <- cryptorand_init p o (Some rng) ;;
      ret (match snd rs with Some rng' => rng' | None => rng end, m)
  | op_generate pBufferOut byteCount =>
      rm <- cryptorand_generate p o (Some rng) m pBufferOut byteCount ;;
      ret (rng, snd rm)
  | op_uninit =>
      r <- cryptorand_uninit p o (Some rng) ;;
      ret (match r with Some rng' => rng' | None => rng end, m)
  end.

Fixpoint run (p : platform) (o : os) (ops : list operation)
    (st : cryptorand p * mem) : M (cryptorand p * mem) :=
  match ops with
  | [] => ret st
  | op :: ops' => st' <- step p o op st ;; run p o ops' st'
  end.

(* ------------------------------------------------------------------------- *)
(** ** Concrete environments used in the examples                             *)
(* ------------------------------------------------------------------------- *)

Definition no_bytes : Z -> byte := fun _ => x00.
Definition sentinel_mem : mem := fun _ => xaa.
Definition random_bytes : Z -> byte := fun i => if Z.even i then x5a else xc3.

(** Nothing is available: every call returns 0. *)
Definition os_nothing : os := fun _ _ => mk_response 0 0 no_bytes.

(** Every call succeeds: modules load at 0x1000, entry points resolve to
    0x2000, opening a provider, context or stream yields 0x3000 (status 0 for
    BCrypt, TRUE otherwise), and reads are served in full. *)
Definition os_all_good : os := fun _ c =>
  match c with
  | LoadLibraryW _ => mk_response 0x1000 0 no_bytes
  | GetProcAddress _ _ => mk_response 0x2000 0 no_bytes
  | FreeLibrary _ => mk_response 1 0 no_bytes
  | call_BCryptOpenAlgorithmProvider _ _ _ => mk_response 0 0x3000 no_bytes
  | call_BCryptCloseAlgorithmProvider _ _ _ => mk_response 0 0 no_bytes
  | call_BCryptGenRandom _ _ _ _ _ => mk_response 0 0 random_bytes
  | call_CryptAcquireContextW _ _ _ => mk_response 1 0x3000 no_bytes
  | call_CryptReleaseContext _ _ _ => mk_response 1 0 no_bytes
  | call_CryptGenRandom _ _ _ _ => mk_response 1 0 random_bytes
  | fopen _ _ => mk_response 0x3000 0 no_bytes
  | fclose _ => mk_response 0 0 no_bytes
  | fread _ _ count _ => mk_response count 0 random_bytes
  end.

(** bcrypt.dll loads but exports nothing; advapi32.dll works. *)
Definition os_bcrypt_without_exports : os := fun h c =>
  match c with
  | LoadLibraryW "bcrypt.dll" => mk_response 0x1000 0 no_bytes
  | LoadLibraryW _ => mk_response 0x1100 0 no_bytes
  | GetProcAddress 0x1000 _ => mk_response 0 0 no_bytes
  | _ => os_all_good h c
  end.

(** A stream that opens but delivers one byte less than asked. *)
Definition os_short_read : os := fun h c =>
  match c with
  | fread _ _ count _ => mk_response (count - 1) 0 random_bytes
  | _ => os_all_good h c
  end.

(* ------------------------------------------------------------------------- *)
(** ** The test program                                                       *)
(* ------------------------------------------------------------------------- *)

(** [main] of tests/cryptorand_test.c: [unsigned char pRandom[64] = {0}],
    then [cryptorand_init(&rng)], [cryptorand_generate(&rng, pRandom,
    sizeof(pRandom))] and [cryptorand_uninit(&rng)], every result ignored,
    and [return 0].  [rng] is a local that is not initialised. *)
Definition main (p : platform) (o : os) (rng : cryptorand p) (m : mem)
    (pRandom : Z) : M (Z * (cryptorand p * mem)) :=
  let m := CRYPTORAND_ZERO_MEMORY m pRandom 64 in
  st <- step p o op_init (rng, m) ;;
  st <- step p o (op_generate pRandom 64) st ;;
  st <- step p o op_uninit st ;;
  ret (0, st).

(* ------------------------------------------------------------------------- *)
(** ** Kinds of operating-system calls                                        *)
(* ------------------------------------------------------------------------- *)

(** Calls that load, resolve or open something. *)
Definition acquires (c : os_call) : bool :=
  match c with
  | LoadLibraryW _ | GetProcAddress _ _
  | call_BCryptOpenAlgorithmProvider _ _ _
  | call_CryptAcquireContextW _ _ _
  | fopen _ _ => true
  | _ => false
  end.

(** Calls that close or unload something. *)
Definition releases (c : os_call) : bool :=
  match c with
  | FreeLibrary _
  | call_BCryptCloseAlgorithmProvider _ _ _
  | call_CryptReleaseContext _ _ _
  | fclose _ => true
  | _ => false
  end.

(** Calls that ask for random bytes. *)
Definition generates (c : os_call) : bool :=
  match c with
  | call_BCryptGenRandom _ _ _ _ _
  | call_CryptGenRandom _ _ _ _
  | fread _ _ _ _ => true
  | _ => false
  end.

(* ------------------------------------------------------------------------- *)
(** ** Basic facts                                                            *)
(* ------------------------------------------------------------------------- *)

Ltac monad_unfold :=
  unfold bind, ret, syscall, call_proc, fault, is_null, NULL in *.

(** Case analysis on every test of the code, NULL tests first so that a
    pointer tested twice is split once. *)
Ltac split_tests :=
  repeat (cbn;
          match goal with
          | H : (?x =? 0) = _ |- context [?x =? 0] => rewrite H
          | |- context [?x =? 0] => destruct (x =? 0) eqn:?
          | |- context [if ?b then _ else _] => destruct b eqn:?
          end).

(** The same for [cryptorand_init__win32], keeping its second block folded. *)
Ltac split_init_win32 :=
  unfold cryptorand_init__win32; monad_unfold;
  repeat (cbn -[cryptorand_init__win32_advapi];
          match goal with
          | H : (?x =? 0) = _ |- context [?x =? 0] => rewrite H
          | |- context [?x =? 0] => destruct (x =? 0) eqn:?
          end).

Ltac neq_hyps :=
  repeat match goal with
         | H : (_ =? _) = false |- _ => apply Z.eqb_neq in H
         | H : (_ =? _) = true |- _ => apply Z.eqb_eq in H
         end.

Lemma is_null_false (v : Z) : is_null v = false <-> v <> NULL.
Proof. unfold is_null. apply Z.eqb_neq. Qed.

Lemma is_null_true (v : Z) : is_null v = true <-> v = NULL.
Proof. unfold is_null. apply Z.eqb_eq. Qed.

Lemma in_range_spec (p n a : Z) : in_range p n a = true <-> p <= a < p + n.
Proof. unfold in_range. rewrite andb_true_iff, Z.leb_le, Z.ltb_lt. tauto. Qed.

Lemma in_range_shrink (p n n' a : Z) :
  n' <= n -> in_range p n a = false -> in_range p n' a = false.
Proof.
  intros Hle Hout. destruct (in_range p n' a) eqn:E; [|reflexivity].
  apply in_range_spec in E.
  assert (in_range p n a = true) by (apply in_range_spec; lia).
  congruence.
Qed.

Lemma zero_memory_inside (m : mem) (p n a : Z) :
  in_range p n a = true -> CRYPTORAND_ZERO_MEMORY m p n a = x00.
Proof. intros H. unfold CRYPTORAND_ZERO_MEMORY. now rewrite H. Qed.

Lemma zero_memory_outside (m : mem) (p n a : Z) :
  in_range p n a = false -> CRYPTORAND_ZERO_MEMORY m p n a = m a.
Proof. intros H. unfold CRYPTORAND_ZERO_MEMORY. now rewrite H. Qed.

Lemma store_bytes_inside (m : mem) (p n : Z) (data : Z -> byte) (a : Z) :
  in_range p n a = true -> store_bytes m p n data a = data (a - p).
Proof. intros H. unfold store_bytes. now rewrite H. Qed.

Lemma store_bytes_outside (m : mem) (p n : Z) (data : Z -> byte) (a : Z) :
  in_range p n a = false -> store_bytes m p n data a = m a.
Proof. intros H. unfold store_bytes. now rewrite H. Qed.

Lemma to_ULONG_small (v : Z) : 0 <= v <= 0xFFFFFFFF -> to_ULONG v = v.
Proof. intros H. unfold to_ULONG. apply Z.mod_small. lia. Qed.

Lemma fread_count_bounds (r count : Z) :
  0 <= count -> 0 <= fread_count r count <= count.
Proof. unfold fread_count. lia. Qed.

Lemma result_code_injective (r1 r2 : cryptorand_result) :
  result_code r1 = result_code r2 -> r1 = r2.
Proof. destruct r1, r2; cbn; intros H; try reflexivity; discriminate H. Qed.

Lemma is_success_spec (r : cryptorand_result) :
  is_success r = true <-> r = CRYPTORAND_SUCCESS.
Proof. destruct r; cbn; split; intros H; try reflexivity; discriminate H. Qed.

Lemma source_inv_zero (p : platform) : source_inv p (CRYPTORAND_ZERO_OBJECT p).
Proof. destruct p; cbn; auto. left. reflexivity. Qed.

(* ------------------------------------------------------------------------- *)
(** ** Initialisation                                                         *)
(* ------------------------------------------------------------------------- *)

Lemma cryptorand_init__win32_advapi_spec (o : os) (h : history) :
  exists r s h',
    cryptorand_init__win32_advapi o h = Some (r, s, h') /\
    ((r = CRYPTORAND_SUCCESS /\ win32_advapi s) \/
     (r = CRYPTORAND_ERROR /\ s = zero_win32)).
Proof.
  unfold cryptorand_init__win32_advapi, cryptorand_init__win32_unusable.
  monad_unfold. split_tests.
  all: do 3 eexists; (split; [reflexivity|]).
  all: try (right; split; reflexivity).
  all: left; split; [reflexivity|]; neq_hyps; unfold win32_advapi; cbn; tauto.
Qed.

Lemma cryptorand_init__win32_spec (o : os) (s0 : cryptorand_win32) (h : history) :
  exists r s h',
    cryptorand_init__win32 o s0 h = Some (r, s, h') /\
    ((r = CRYPTORAND_SUCCESS /\ (win32_bcrypt s \/ win32_advapi s)) \/
     (r = CRYPTORAND_ERROR /\ s = zero_win32)).
Proof.
  assert (A : forall h1, exists r s h',
    cryptorand_init__win32_advapi o h1 = Some (r, s, h') /\
    ((r = CRYPTORAND_SUCCESS /\ (win32_bcrypt s \/ win32_advapi s)) \/
     (r = CRYPTORAND_ERROR /\ s = zero_win32))).
  { intros h1. destruct (cryptorand_init__win32_advapi_spec o h1)
      as (r & s & h' & E & [[? ?]|[? ?]]); exists r, s, h'; tauto. }
  unfold cryptorand_init__win32. monad_unfold.
  repeat (cbn -[cryptorand_init__win32_advapi];
          match goal with
          | H : (?x =? 0) = _ |- context [?x =? 0] => rewrite H
          | |- context [?x =? 0] => destruct (x =? 0) eqn:?
          end).
  all: try apply A.
  all: do 3 eexists; (split; [reflexivity|]).
  all: left; split; [reflexivity|]; neq_hyps; unfold win32_bcrypt; cbn; tauto.
Qed.

(** What the backend initialisers return, per build configuration. *)
Lemma init_backend_spec (p : platform) (o : os) (s0 : cryptorand p) (h : history) :
  exists r s h',
    init_backend p o s0 h = Some (r, s, h') /\
    ((r = CRYPTORAND_SUCCESS /\ source_inv p s /\ p <> PLATFORM_NONE) \/
     (r = CRYPTORAND_ERROR /\ p <> PLATFORM_NONE) \/
     (r = CRYPTORAND_NOT_IMPLEMENTED /\ p = PLATFORM_NONE)).
Proof.
  destruct p; cbn [init_backend source_inv].
  - destruct (cryptorand_init__win32_spec o s0 h)
      as (r & s & h' & E & [[? ?]|[? ?]]); exists r, s, h';
      (split; [exact E|]).
    + left. repeat split; auto. discriminate.
    + right. left. split; auto. discriminate.
  - unfold cryptorand_init__urandom. monad_unfold. split_tests;
      do 3 eexists; (split; [reflexivity|]).
    + right. left. split; [reflexivity | discriminate].
    + left. repeat split. discriminate.
  - do 3 eexists. split; [reflexivity|]. right. right. split; reflexivity.
Qed.

(** [cryptorand_init] always returns; a failure leaves a blank object, a
    success one that satisfies [source_inv]. *)
Lemma cryptorand_init_spec (p : platform) (o : os) (s0 : cryptorand p) (h : history) :
  exists r s h',
    cryptorand_init p o (Some s0) h = Some (r, Some s, h') /\
    source_inv p s /\
    ((r = CRYPTORAND_SUCCESS /\ p <> PLATFORM_NONE) \/
     (r = CRYPTORAND_ERROR /\ p <> PLATFORM_NONE /\ s = CRYPTORAND_ZERO_OBJECT p) \/
     (r = CRYPTORAND_NOT_IMPLEMENTED /\ p = PLATFORM_NONE /\
      s = CRYPTORAND_ZERO_OBJECT p)).
Proof.
  unfold cryptorand_init, bind.
  destruct (init_backend_spec p o (CRYPTORAND_ZERO_OBJECT p) h)
    as (r & s & h' & E & [(-> & Hinv & Hp) | [(-> & Hp) | (-> & Hp)]]);
    rewrite E; cbn.
  - exists CRYPTORAND_SUCCESS, s, h'. auto.
  - exists CRYPTORAND_ERROR, (CRYPTORAND_ZERO_OBJECT p), h'.
    split; [reflexivity|]. split; [apply source_inv_zero|]. auto.
  - exists CRYPTORAND_NOT_IMPLEMENTED, (CRYPTORAND_ZERO_OBJECT p), h'.
    split; [reflexivity|]. split; [apply source_inv_zero|]. auto.
Qed.

(** Initialisation never unloads a module: no [FreeLibrary] enters the
    history. *)
Lemma cryptorand_init__win32_advapi_no_free (o : os) (h : history) r s h' :
  cryptorand_init__win32_advapi o h = Some (r, s, h') ->
  forall x, In (FreeLibrary x) h' -> In (FreeLibrary x) h.
Proof.
  unfold cryptorand_init__win32_advapi, cryptorand_init__win32_unusable.
  monad_unfold. split_tests; intros E x Hin; inversion E; subst; clear E;
    cbn in Hin; intuition discriminate.
Qed.

Lemma cryptorand_init__win32_no_free (o : os) (s0 : cryptorand_win32)
    (h : history) r s h' :
  cryptorand_init__win32 o s0 h = Some (r, s, h') ->
  forall x, In (FreeLibrary x) h' -> In (FreeLibrary x) h.
Proof.
  unfold cryptorand_init__win32. monad_unfold.
  repeat (cbn -[cryptorand_init__win32_advapi];
          match goal with
          | H : (?x =? 0) = _ |- context [?x =? 0] => rewrite H
          | |- context [?x =? 0] => destruct (x =? 0) eqn:?
          end).
  all: intros E x Hin.
  all: try (apply cryptorand_init__win32_advapi_no_free with (x := x) in E;
            [|exact Hin]).
  all: try (inversion E; subst; clear E).
  all: cbn in *; intuition discriminate.
Qed.

(* ------------------------------------------------------------------------- *)
(** ** Release                                                                *)
(* ------------------------------------------------------------------------- *)

Lemma source_inv_closable (p : platform) (s : cryptorand p) :
  source_inv p s -> closable p s.
Proof.
  destruct p; cbn [source_inv closable]; auto.
  unfold win32_blank, win32_bcrypt, win32_advapi.
  intros [-> | [B | A]]; cbn; intuition congruence.
Qed.

(** Releasing never calls through a NULL entry point when every held handle
    has its close entry point. *)
Lemma uninit_backend_returns (p : platform) (o : os) (s : cryptorand p)
    (h : history) :
  closable p s -> exists h', uninit_backend p o s h = Some (tt, h').
Proof.
  destruct p; cbn [uninit_backend closable].
  - unfold cryptorand_uninit__win32. intros [Hc Hr].
    monad_unfold. split_tests; neq_hyps; try (exfalso; tauto);
      eexists; reflexivity.
  - intros _. unfold cryptorand_uninit__urandom. monad_unfold.
    split_tests; eexists; reflexivity.
  - intros _. eexists. reflexivity.
Qed.

Lemma uninit_backend_zero (p : platform) (o : os) (h : history) :
  uninit_backend p o (CRYPTORAND_ZERO_OBJECT p) h = Some (tt, h).
Proof. destruct p; reflexivity. Qed.

Lemma cryptorand_uninit_spec (p : platform) (o : os) (s : cryptorand p)
    (h : history) :
  closable p s ->
  exists h', cryptorand_uninit p o (Some s) h
             = Some (Some (CRYPTORAND_ZERO_OBJECT p), h').
Proof.
  intros Hinv. destruct (uninit_backend_returns p o s h Hinv) as (h' & E).
  exists h'. unfold cryptorand_uninit, bind. rewrite E. reflexivity.
Qed.

(* ------------------------------------------------------------------------- *)
(** ** Generation                                                             *)
(* ------------------------------------------------------------------------- *)

(** Generating from a source object never calls through a NULL entry point. *)
Lemma generate_backend_returns (p : platform) (o : os) (s : cryptorand p)
    (m : mem) (pBufferOut byteCount : Z) (h : history) :
  source_inv p s ->
  exists r m' h', generate_backend p o s m pBufferOut byteCount h = Some (r, m', h').
Proof.
  destruct p; cbn [generate_backend source_inv].
  - unfold cryptorand_generate__win32, win32_blank, win32_bcrypt, win32_advapi.
    intros [-> | [B | A]].
    + monad_unfold. split_tests; do 3 eexists; reflexivity.
    + monad_unfold. split_tests; neq_hyps; try (exfalso; lia);
        do 3 eexists; reflexivity.
    + monad_unfold. split_tests; neq_hyps; try (exfalso; lia);
        do 3 eexists; reflexivity.
  - intros _. unfold cryptorand_generate__urandom, libc_fread. monad_unfold.
    split_tests; do 3 eexists; reflexivity.
  - intros _. do 3 eexists. reflexivity.
Qed.

(** No backend stores outside the [byteCount] bytes at [pBufferOut]. *)
Lemma generate_backend_frame (p : platform) (o : os) (s : cryptorand p)
    (m : mem) (pBufferOut byteCount : Z) (h : history) r m' h' :
  0 <= byteCount ->
  generate_backend p o s m pBufferOut byteCount h = Some (r, m', h') ->
  forall a, in_range pBufferOut byteCount a = false -> m' a = m a.
Proof.
  intros Hn. destruct p; cbn [generate_backend].
  - unfold cryptorand_generate__win32. monad_unfold.
    split_tests; intros E a Ha; inversion E; subst; clear E; try reflexivity.
    all: rewrite to_ULONG_small by lia; now apply store_bytes_outside.
  - unfold cryptorand_generate__urandom, libc_fread. monad_unfold.
    split_tests; intros E a Ha; inversion E; subst; clear E; try reflexivity.
    all: apply store_bytes_outside;
      apply in_range_shrink with (n := byteCount); [|exact Ha];
      pose proof (fread_count_bounds
                    (ret_val (o h (fread pBufferOut 1 byteCount (pFile s))))
                    byteCount Hn); lia.
  - cbn. intros E a Ha. inversion E. reflexivity.
Qed.

Lemma cryptorand_generate_frame (p : platform) (o : os) (s : cryptorand p)
    (m : mem) (pBufferOut byteCount : Z) (h : history) r m' h' :
  0 <= byteCount ->
  cryptorand_generate p o (Some s) m pBufferOut byteCount h = Some (r, m', h') ->
  forall a, in_range pBufferOut byteCount a = false -> m' a = m a.
Proof.
  intros Hn. unfold cryptorand_generate, bind.
  destruct (is_null pBufferOut).
  - cbn. intros E a _. inversion E. reflexivity.
  - destruct (generate_backend p o s m pBufferOut byteCount h)
      as [[[r0 m0] h0]|] eqn:Eb; [|discriminate].
    pose proof (generate_backend_frame p o s m pBufferOut byteCount h
                  r0 m0 h0 Hn Eb) as Hframe.
    destruct (is_success r0); cbn; intros E a Ha; inversion E; subst; clear E.
    + now apply Hframe.
    + rewrite zero_memory_outside by exact Ha. now apply Hframe.
Qed.

(** With both pointers valid, every failure zeroes the whole request. *)
Lemma cryptorand_generate_failure_zeroes (p : platform) (o : os)
    (s : cryptorand p) (m : mem) (pBufferOut byteCount : Z) (h : history)
    r m' h' :
  pBufferOut <> NULL ->
  cryptorand_generate p o (Some s) m pBufferOut byteCount h = Some (r, m', h') ->
  r <> CRYPTORAND_SUCCESS ->
  forall a, in_range pBufferOut byteCount a = true -> m' a = x00.
Proof.
  intros Hbuf. apply is_null_false in Hbuf.
  unfold cryptorand_generate, bind. rewrite Hbuf.
  destruct (generate_backend p o s m pBufferOut byteCount h)
    as [[[r0 m0] h0]|]; [|discriminate].
  destruct (is_success r0) eqn:Es; cbn; intros E Hr a Ha;
    inversion E; subst; clear E.
  - apply is_success_spec in Es. contradiction.
  - now apply zero_memory_inside.
Qed.

(** With a live handle, a success means one backend call for the full length
    whose bytes fill the buffer. *)
Lemma cryptorand_generate_success_fills (p : platform) (o : os)
    (s : cryptorand p) (m : mem) (pBufferOut byteCount : Z) (h : history)
    m' h' :
  0 <= byteCount ->
  (1 <= live_handles p s)%nat ->
  cryptorand_generate p o (Some s) m pBufferOut byteCount h
    = Some (CRYPTORAND_SUCCESS, m', h') ->
  exists c, h' = c :: h /\
    forall a, in_range pBufferOut byteCount a = true ->
              m' a = out_bytes (o h c) (a - pBufferOut).
Proof.
  intros Hn Hlive. unfold cryptorand_generate, live_handles in *.
  destruct p; cbn [generate_backend backend_handles] in *.
  - unfold cryptorand_generate__win32. monad_unfold. revert Hlive.
    split_tests; intros Hlive E; inversion E; subst; clear E;
      try (cbn in Hlive; exfalso; lia).
    all: eexists; split; [reflexivity|]; intros a Ha;
      rewrite to_ULONG_small in * by lia; now apply store_bytes_inside.
  - unfold cryptorand_generate__urandom, libc_fread. monad_unfold. revert Hlive.
    split_tests; intros Hlive E; inversion E; subst; clear E.
    eexists; split; [reflexivity|]; intros a Ha.
    apply store_bytes_inside.
    match goal with H : (_ <? _) = false |- _ => apply Z.ltb_ge in H;
      pose proof (fread_count_bounds
                    (ret_val (o h (fread pBufferOut 1 byteCount (pFile s))))
                    byteCount Hn) end.
    replace (fread_count (ret_val (o h (fread pBufferOut 1 byteCount (pFile s))))
               byteCount * 1) with byteCount by lia.
    exact Ha.
  - cbn in Hlive. lia.
Qed.

Lemma cryptorand_generate_returns (p : platform) (o : os) (s : cryptorand p)
    (m : mem) (pBufferOut byteCount : Z) (h : history) :
  source_inv p s ->
  exists r m' h',
    cryptorand_generate p o (Some s) m pBufferOut byteCount h = Some (r, m', h').
Proof.
  intros Hinv. unfold cryptorand_generate, bind.
  destruct (is_null pBufferOut); [do 3 eexists; reflexivity|].
  destruct (generate_backend_returns p o s m pBufferOut byteCount h Hinv)
    as (r & m' & h' & E).
  rewrite E. destruct (is_success r); do 3 eexists; reflexivity.
Qed.

(* ------------------------------------------------------------------------- *)
(** ** The state invariant along sequences of calls                           *)
(* ------------------------------------------------------------------------- *)

(** What [source_inv] says in terms of the three states. *)
Lemma source_inv_states (p : platform) (s : cryptorand p) :
  source_inv p s ->
  exactly_one (uninitialized p s) (primary_active p s) (fallback_active p s) = true /\
  (live_backends p s <= 1)%nat /\
  (live_handles p s <= 1)%nat /\
  (uninitialized p s = true -> s = CRYPTORAND_ZERO_OBJECT p).
Proof.
  destruct p; cbn [source_inv uninitialized primary_active fallback_active
                   CRYPTORAND_ZERO_OBJECT].
  - unfold win32_blank, win32_bcrypt, win32_advapi, live_handles, live_backends.
    destruct s as [a1 a2 a3 a4 a5 b1 b2 b3 b4 b5]. cbn.
    intros [E | [B | A]].
    + inversion E; subst. cbn. repeat split; auto.
    + destruct B as (B1 & _ & _ & _ & -> & -> & -> & -> & ->).
      apply is_null_false in B1. rewrite B1. cbn.
      repeat split; [lia | | discriminate].
      destruct (is_null a5); cbn; lia.
    + destruct A as (A1 & _ & _ & _ & -> & -> & -> & -> & ->).
      apply is_null_false in A1. rewrite A1. cbn.
      repeat split; [lia | | discriminate].
      destruct (is_null b5); cbn; lia.
  - intros _. destruct s as [f]. unfold live_handles, live_backends. cbn.
    destruct (is_null f) eqn:E; cbn; repeat split; try lia; try discriminate.
    intros _. apply is_null_true in E. now rewrite E.
  - intros _. destruct s. cbn. repeat split; auto.
Qed.

Lemma step_preserves (p : platform) (o : os) (op : operation)
    (s : cryptorand p) (m : mem) (h : history) :
  source_inv p s ->
  exists s' m' h', step p o op (s, m) h = Some (s', m', h') /\ source_inv p s'.
Proof.
  intros Hinv. destruct op; cbn [step]; unfold bind.
  - destruct (cryptorand_init_spec p o s h) as (r & s' & h' & E & Hs' & _).
    rewrite E. exists s', m, h'. split; [reflexivity | exact Hs'].
  - destruct (cryptorand_generate_returns p o s m pBufferOut byteCount h Hinv)
      as (r & m' & h' & E).
    rewrite E. exists s, m', h'. split; [reflexivity | exact Hinv].
  - destruct (cryptorand_uninit_spec p o s h (source_inv_closable p s Hinv))
      as (h' & E).
    rewrite E. exists (CRYPTORAND_ZERO_OBJECT p), m, h'.
    split; [reflexivity | apply source_inv_zero].
Qed.

Lemma run_preserves (p : platform) (o : os) (ops : list operation) :
  forall (s : cryptorand p) (m : mem) (h : history),
    source_inv p s ->
    exists s' m' h', run p o ops (s, m) h = Some (s', m', h') /\ source_inv p s'.
Proof.
  induction ops as [|op ops IH]; intros s m h Hinv.
  - exists s, m, h. split; [reflexivity | exact Hinv].
  - destruct (step_preserves p o op s m h Hinv) as (s1 & m1 & h1 & E1 & Hinv1).
    destruct (IH s1 m1 h1 Hinv1) as (s2 & m2 & h2 & E2 & Hinv2).
    exists s2, m2, h2. split; [|exact Hinv2].
    cbn [run]. unfold bind. rewrite E1. exact E2.
Qed.

(** A sequence that opens with initialize may start from any content. *)
Lemma run_from_init_preserves (p : platform) (o : os) (ops : list operation)
    (s0 : cryptorand p) (m0 : mem) (h0 : history) :
  exists s m h,
    run p o (op_init :: ops) (s0, m0) h0 = Some (s, m, h) /\ source_inv p s.
Proof.
  destruct (cryptorand_init_spec p o s0 h0) as (r & s1 & h1 & E & Hs1 & _).
  destruct (run_preserves p o ops s1 m0 h1 Hs1) as (s & m & h & E2 & Hs).
  exists s, m, h. split; [|exact Hs].
  cbn [run step]. unfold bind. rewrite E. exact E2.
Qed.

(* ------------------------------------------------------------------------- *)
(** ** The properties of the specification                                    *)
(* ------------------------------------------------------------------------- *)

(** C1. The specification asks that every failure of [cryptorand_generate],
    invalid arguments included, leaves the whole destination zeroed.  With a
    NULL source and a valid destination the call returns
    [CRYPTORAND_INVALID_ARGS] before the zeroing code is reached: four
    sentinel bytes at address 16 are still there afterwards, in every build
    configuration and whatever the operating system does. *)
Theorem generate_null_source_leaves_buffer (p : platform) (o : os) :
  cryptorand_generate p o None sentinel_mem 16 4 []
    = Some (CRYPTORAND_INVALID_ARGS, sentinel_mem, []) /\
  CRYPTORAND_INVALID_ARGS <> CRYPTORAND_SUCCESS /\
  in_range 16 4 16 = true /\
  sentinel_mem 16 <> x00.
Proof.
  repeat split; try reflexivity; discriminate.
Qed.

(** C2. The specification asks that generating from a source whose fields
    are all blank fails with [CRYPTORAND_INVALID_OPERATION].  The Win32
    backend tests [hAlgorithm], then [hProvider], and when both are NULL falls
    through to [return CRYPTORAND_SUCCESS]: the call succeeds without calling
    the operating system and without storing a byte. *)
Theorem generate_win32_blank_source_succeeds (o : os) :
  uninitialized PLATFORM_WIN32 zero_win32 = true /\
  exists r,
    cryptorand_generate PLATFORM_WIN32 o (Some zero_win32) sentinel_mem 16 4 []
      = Some (r, sentinel_mem, []) /\
    r = CRYPTORAND_SUCCESS /\ r <> CRYPTORAND_INVALID_OPERATION.
Proof.
  split; [reflexivity|]. exists CRYPTORAND_SUCCESS.
  repeat split; try reflexivity; discriminate.
Qed.

(** The /dev/urandom backend does what C2 asks. *)
Lemma generate_urandom_blank_source_fails (o : os) (m : mem)
    (pBufferOut byteCount : Z) (h : history) :
  pBufferOut <> NULL ->
  cryptorand_generate PLATFORM_URANDOM o (Some zero_urandom) m pBufferOut byteCount h
    = Some (CRYPTORAND_INVALID_OPERATION,
            CRYPTORAND_ZERO_MEMORY m pBufferOut byteCount, h).
Proof.
  intros Hbuf. apply is_null_false in Hbuf.
  unfold cryptorand_generate. rewrite Hbuf. reflexivity.
Qed.

(** C3. On the Win32 backend, whose generation entry points take a 32-bit
    length, a request for more than 0xFFFFFFFF bytes returns
    [CRYPTORAND_TOO_BIG], an error code no other result shares; every
    requested byte of the destination is zero afterwards; and the history of
    operating-system calls is unchanged, so the request is neither served in
    several calls nor passed on with a truncated length. *)
Theorem generate_win32_too_big (o : os) (s : cryptorand_win32) (m : mem)
    (pBufferOut byteCount : Z) (h : history) :
  pBufferOut <> NULL ->
  byteCount > 0xFFFFFFFF ->
  exists m',
    cryptorand_generate PLATFORM_WIN32 o (Some s) m pBufferOut byteCount h
      = Some (CRYPTORAND_TOO_BIG, m', h) /\
    (forall a, pBufferOut <= a < pBufferOut + byteCount -> m' a = x00) /\
    (forall a, in_range pBufferOut byteCount a = false -> m' a = m a) /\
    (forall r, result_code r = result_code CRYPTORAND_TOO_BIG ->
               r = CRYPTORAND_TOO_BIG).
Proof.
  intros Hbuf Hbig. apply is_null_false in Hbuf.
  exists (CRYPTORAND_ZERO_MEMORY m pBufferOut byteCount).
  repeat split.
  - unfold cryptorand_generate. rewrite Hbuf. cbn [generate_backend].
    unfold cryptorand_generate__win32, bind.
    apply Z.gt_lt, Z.gtb_lt in Hbig. rewrite Hbig. reflexivity.
  - intros a Ha. apply zero_memory_inside. now apply in_range_spec.
  - intros a Ha. now apply zero_memory_outside.
  - intros r. apply result_code_injective.
Qed.

Lemma generate_win32_too_big_witness :
  exists m',
    cryptorand_generate PLATFORM_WIN32 os_all_good
      (Some (mk_win32 0x1000 0x2000 0x2000 0x2000 0x3000 0 0 0 0 0))
      sentinel_mem 16 0x100000000 []
      = Some (CRYPTORAND_TOO_BIG, m', []) /\
    (forall a, 16 <= a < 16 + 0x100000000 -> m' a = x00) /\
    (forall a, in_range 16 0x100000000 a = false -> m' a = sentinel_mem a) /\
    (forall r, result_code r = result_code CRYPTORAND_TOO_BIG ->
               r = CRYPTORAND_TOO_BIG).
Proof.
  apply (generate_win32_too_big os_all_good
           (mk_win32 0x1000 0x2000 0x2000 0x2000 0x3000 0 0 0 0 0)
           sentinel_mem 16 0x100000000 []).
  - unfold NULL. lia.
  - lia.
Defined.

(** C4. [cryptorand_init] always returns, and whenever its result is not
    [CRYPTORAND_SUCCESS] the structure it was given (when there is one) has
    every field zero, whatever it held before.  The failure code tells the
    causes apart: [CRYPTORAND_INVALID_ARGS] exactly for a NULL pointer,
    [CRYPTORAND_NOT_IMPLEMENTED] exactly when no backend is compiled in,
    [CRYPTORAND_ERROR] when the compiled-in backends are exhausted; the three
    codes are different integers. *)
Theorem cryptorand_init_failure_blank (p : platform) (o : os)
    (pRNG : option (cryptorand p)) (h : history) :
  exists r pRNG' h',
    cryptorand_init p o pRNG h = Some (r, pRNG', h') /\
    (r <> CRYPTORAND_SUCCESS ->
     pRNG' = option_map (fun _ => CRYPTORAND_ZERO_OBJECT p) pRNG /\
     ((r = CRYPTORAND_INVALID_ARGS /\ pRNG = None) \/
      (r = CRYPTORAND_NOT_IMPLEMENTED /\ pRNG <> None /\ p = PLATFORM_NONE) \/
      (r = CRYPTORAND_ERROR /\ pRNG <> None /\ p <> PLATFORM_NONE))) /\
    NoDup (map result_code [CRYPTORAND_SUCCESS; CRYPTORAND_ERROR;
                            CRYPTORAND_INVALID_ARGS; CRYPTORAND_NOT_IMPLEMENTED]).
Proof.
  assert (D : NoDup (map result_code [CRYPTORAND_SUCCESS; CRYPTORAND_ERROR;
                       CRYPTORAND_INVALID_ARGS; CRYPTORAND_NOT_IMPLEMENTED])).
  { cbn. repeat constructor; cbn; intuition discriminate. }
  destruct pRNG as [s0|].
  - destruct (cryptorand_init_spec p o s0 h)
      as (r & s & h' & E & _ & [(-> & Hp) | [(-> & Hp & ->) | (-> & Hp & ->)]]);
      eexists _, _, h'; (split; [exact E|]); (split; [|exact D]); intros Hr.
    + contradiction.
    + split; [reflexivity|]. right. right. repeat split; auto. discriminate.
    + split; [reflexivity|]. right. left. repeat split; auto. discriminate.
  - exists CRYPTORAND_INVALID_ARGS, None, h.
    split; [reflexivity|]. split; [|exact D]. intros _.
    split; [reflexivity|]. left. split; reflexivity.
Qed.

Lemma cryptorand_init_failure_blank_witness :
  cryptorand_init PLATFORM_WIN32 os_nothing
    (Some (mk_win32 1 2 3 4 5 6 7 8 9 10)) []
    = Some (CRYPTORAND_ERROR, Some zero_win32,
            [LoadLibraryW "advapi32.dll"; LoadLibraryW "bcrypt.dll"]) /\
  CRYPTORAND_ERROR <> CRYPTORAND_SUCCESS /\
  exists r pRNG' h',
    cryptorand_init PLATFORM_WIN32 os_nothing
      (Some (mk_win32 1 2 3 4 5 6 7 8 9 10)) [] = Some (r, pRNG', h') /\
    (r <> CRYPTORAND_SUCCESS ->
     pRNG' = option_map (fun _ => CRYPTORAND_ZERO_OBJECT PLATFORM_WIN32)
               (Some (mk_win32 1 2 3 4 5 6 7 8 9 10)) /\
     ((r = CRYPTORAND_INVALID_ARGS /\ Some (mk_win32 1 2 3 4 5 6 7 8 9 10) = None) \/
      (r = CRYPTORAND_NOT_IMPLEMENTED /\
       Some (mk_win32 1 2 3 4 5 6 7 8 9 10) <> None /\
       PLATFORM_WIN32 = PLATFORM_NONE) \/
      (r = CRYPTORAND_ERROR /\ Some (mk_win32 1 2 3 4 5 6 7 8 9 10) <> None /\
       PLATFORM_WIN32 <> PLATFORM_NONE))) /\
    NoDup (map result_code [CRYPTORAND_SUCCESS; CRYPTORAND_ERROR;
                            CRYPTORAND_INVALID_ARGS; CRYPTORAND_NOT_IMPLEMENTED]).
Proof.
  split; [reflexivity|]. split; [discriminate|].
  apply (cryptorand_init_failure_blank PLATFORM_WIN32 os_nothing
           (Some (mk_win32 1 2 3 4 5 6 7 8 9 10)) []).
Defined.

(** C5. Take any sequence of initialize, generate and release calls on one
    source that starts from a source object, and any point [k] of it.  The
    first [k] calls all return, and the structure is then in exactly one of
    the states uninitialized, primary-active, fallback-active; it holds
    modules or handles of at most one service, and at most one handle to
    generate from; and in the uninitialized state every field is zero. *)
Theorem source_states_exclusive (p : platform) (o : os) (ops : list operation)
    (k : nat) (s0 : cryptorand p) (m0 : mem) (h0 : history) :
  source_inv p s0 ->
  exists s m h,
    run p o (firstn k ops) (s0, m0) h0 = Some (s, m, h) /\
    exactly_one (uninitialized p s) (primary_active p s) (fallback_active p s)
      = true /\
    (live_backends p s <= 1)%nat /\
    (live_handles p s <= 1)%nat /\
    (uninitialized p s = true -> s = CRYPTORAND_ZERO_OBJECT p).
Proof.
  intros Hinv.
  destruct (run_preserves p o (firstn k ops) s0 m0 h0 Hinv)
    as (s & m & h & E & Hs).
  exists s, m, h. split; [exact E|]. now apply source_inv_states.
Qed.

Lemma source_states_exclusive_witness :
  source_inv PLATFORM_WIN32 zero_win32 /\
  exists s m h,
    run PLATFORM_WIN32 os_bcrypt_without_exports
      (firstn 3 [op_init; op_generate 16 4; op_init; op_uninit; op_generate 16 4])
      (zero_win32, sentinel_mem) [] = Some (s, m, h) /\
    exactly_one (uninitialized PLATFORM_WIN32 s) (primary_active PLATFORM_WIN32 s)
      (fallback_active PLATFORM_WIN32 s) = true /\
    (live_backends PLATFORM_WIN32 s <= 1)%nat /\
    (live_handles PLATFORM_WIN32 s <= 1)%nat /\
    (uninitialized PLATFORM_WIN32 s = true ->
     s = CRYPTORAND_ZERO_OBJECT PLATFORM_WIN32).
Proof.
  split; [left; reflexivity|].
  apply (source_states_exclusive PLATFORM_WIN32 os_bcrypt_without_exports
           [op_init; op_generate 16 4; op_init; op_uninit; op_generate 16 4]
           3 zero_win32 sentinel_mem []).
  left. reflexivity.
Defined.

(** C6. The specification asks that a failed attempt at the modern service
    releases the module it loaded before the legacy service is tried.  When
    bcrypt.dll loads (handle 0x1000) but its entry points do not resolve,
    [cryptorand_init] blanks the structure, which forgets the handle, and
    goes on to advapi32.dll: the call succeeds on the legacy service (the
    primary failure is absorbed), but no [FreeLibrary] is ever issued by the
    initialisation, and the later release unloads advapi32.dll only. *)
Theorem init_win32_bcrypt_module_not_released :
  ret_val (os_bcrypt_without_exports [] (LoadLibraryW "bcrypt.dll")) = 0x1000 /\
  exists s h,
    cryptorand_init PLATFORM_WIN32 os_bcrypt_without_exports (Some zero_win32) []
      = Some (CRYPTORAND_SUCCESS, Some s, h) /\
    In (LoadLibraryW "bcrypt.dll") h /\
    (forall x, ~ In (FreeLibrary x) h) /\
    hBcryptDLL s = NULL /\ hAdvapiDLL s = 0x1100 /\
    exists h',
      cryptorand_uninit PLATFORM_WIN32 os_bcrypt_without_exports (Some s) h
        = Some (Some zero_win32, h') /\
      In (FreeLibrary 0x1100) h' /\
      ~ In (FreeLibrary 0x1000) h'.
Proof.
  split; [reflexivity|].
  eexists. eexists. split; [vm_compute; reflexivity|].
  split; [cbn; tauto|].
  split; [intros x Hin; cbn in Hin; intuition discriminate|].
  split; [reflexivity|]. split; [reflexivity|].
  eexists. split; [vm_compute; reflexivity|].
  split; [cbn; tauto|].
  intros Hin; cbn in Hin; intuition discriminate.
Qed.

(** C7. Release needs no particular state: on every structure in which a
    held handle comes with its close entry point (a blank structure, one left
    by a failed or successful initialize, any intermediate state of
    initialize) it returns and leaves every field zero; a second release
    right after it returns too, makes no call to the operating system and
    leaves the same blank structure. *)
Theorem cryptorand_uninit_idempotent (p : platform) (o : os) (s : cryptorand p)
    (h : history) :
  closable p s ->
  exists h1,
    cryptorand_uninit p o (Some s) h
      = Some (Some (CRYPTORAND_ZERO_OBJECT p), h1) /\
    cryptorand_uninit p o (Some (CRYPTORAND_ZERO_OBJECT p)) h1
      = Some (Some (CRYPTORAND_ZERO_OBJECT p), h1).
Proof.
  intros Hc. destruct (cryptorand_uninit_spec p o s h Hc) as (h1 & E).
  exists h1. split; [exact E|].
  unfold cryptorand_uninit, bind. now rewrite uninit_backend_zero.
Qed.

Lemma cryptorand_uninit_idempotent_witness :
  closable PLATFORM_WIN32 (mk_win32 0x1000 0x2000 0x2000 0x2000 0x3000 0 0 0 0 0) /\
  exists h1,
    cryptorand_uninit PLATFORM_WIN32 os_all_good
      (Some (mk_win32 0x1000 0x2000 0x2000 0x2000 0x3000 0 0 0 0 0)) []
      = Some (Some (CRYPTORAND_ZERO_OBJECT PLATFORM_WIN32), h1) /\
    cryptorand_uninit PLATFORM_WIN32 os_all_good
      (Some (CRYPTORAND_ZERO_OBJECT PLATFORM_WIN32)) h1
      = Some (Some (CRYPTORAND_ZERO_OBJECT PLATFORM_WIN32), h1).
Proof.
  assert (C : closable PLATFORM_WIN32
                (mk_win32 0x1000 0x2000 0x2000 0x2000 0x3000 0 0 0 0 0)).
  { cbn. split; intros; lia. }
  split; [exact C|].
  apply (cryptorand_uninit_idempotent PLATFORM_WIN32 os_all_good
           (mk_win32 0x1000 0x2000 0x2000 0x2000 0x3000 0 0 0 0 0) [] C).
Defined.

(** Release is in particular safe on a blank structure and on whatever
    [cryptorand_init] leaves, failed or not. *)
Lemma closable_zero (p : platform) : closable p (CRYPTORAND_ZERO_OBJECT p).
Proof. apply source_inv_closable, source_inv_zero. Qed.

Lemma closable_after_init (p : platform) (o : os) (s0 : cryptorand p)
    (h : history) r s h' :
  cryptorand_init p o (Some s0) h = Some (r, Some s, h') -> closable p s.
Proof.
  intros E. destruct (cryptorand_init_spec p o s0 h) as (r1 & s1 & h1 & E1 & Hs & _).
  rewrite E1 in E. inversion E; subst. now apply source_inv_closable.
Qed.

(** C8. The specification asks that a successful generate stores exactly
    the requested number of bytes obtained from the operating system.  On
    Win32, after initialize and release, a 64-byte request on the now blank
    source returns [CRYPTORAND_SUCCESS] although no call reaches the
    operating system and the 64 sentinel bytes of the destination stay as
    they were. *)
Theorem generate_win32_success_without_bytes :
  exists s h,
    run PLATFORM_WIN32 os_all_good [op_init; op_uninit]
      (zero_win32, sentinel_mem) [] = Some (s, sentinel_mem, h) /\
    cryptorand_generate PLATFORM_WIN32 os_all_good (Some s) sentinel_mem 0x100 64 h
      = Some (CRYPTORAND_SUCCESS, sentinel_mem, h) /\
    (forall a, in_range 0x100 64 a = true -> sentinel_mem a = xaa).
Proof.
  eexists. eexists. split; [vm_compute; reflexivity|].
  split; [reflexivity|]. intros a _. reflexivity.
Qed.

(** C9. On the /dev/urandom backend, when [fread] delivers fewer bytes than
    requested, [cryptorand_generate] returns [CRYPTORAND_ERROR] after that
    single read, and every requested byte of the destination is zero: the
    partial data is not handed to the caller. *)
Theorem generate_urandom_short_read (o : os) (s : cryptorand_urandom) (m : mem)
    (pBufferOut byteCount : Z) (h : history) :
  pBufferOut <> NULL ->
  pFile s <> NULL ->
  fread_count (ret_val (o h (fread pBufferOut 1 byteCount (pFile s)))) byteCount
    < byteCount ->
  exists m',
    cryptorand_generate PLATFORM_URANDOM o (Some s) m pBufferOut byteCount h
      = Some (CRYPTORAND_ERROR, m', fread pBufferOut 1 byteCount (pFile s) :: h) /\
    CRYPTORAND_ERROR <> CRYPTORAND_SUCCESS /\
    (forall a, in_range pBufferOut byteCount a = true -> m' a = x00) /\
    (forall a, in_range pBufferOut byteCount a = false -> m' a = m a).
Proof.
  intros Hbuf Hfile Hshort.
  apply is_null_false in Hbuf. apply is_null_false in Hfile.
  apply Z.ltb_lt in Hshort.
  eexists. split.
  - unfold cryptorand_generate. rewrite Hbuf. cbn [generate_backend].
    unfold cryptorand_generate__urandom, libc_fread, bind, syscall, ret.
    rewrite Hfile. cbn. rewrite Hshort. cbn. reflexivity.
  - split; [discriminate|]. split; intros a Ha.
    + now apply zero_memory_inside.
    + rewrite zero_memory_outside by exact Ha.
      apply store_bytes_outside.
      apply in_range_shrink with (n := byteCount); [|exact Ha].
      apply Z.ltb_lt in Hshort. lia.
Qed.

Lemma generate_urandom_short_read_witness :
  exists m',
    cryptorand_generate PLATFORM_URANDOM os_short_read (Some (mk_urandom 0x3000))
      sentinel_mem 16 4 []
      = Some (CRYPTORAND_ERROR, m', [fread 16 1 4 0x3000]) /\
    CRYPTORAND_ERROR <> CRYPTORAND_SUCCESS /\
    (forall a, in_range 16 4 a = true -> m' a = x00) /\
    (forall a, in_range 16 4 a = false -> m' a = sentinel_mem a).
Proof.
  apply (generate_urandom_short_read os_short_read (mk_urandom 0x3000)
           sentinel_mem 16 4 []).
  - unfold NULL. lia.
  - unfold NULL. cbn. lia.
  - vm_compute. reflexivity.
Defined.

(** C10. [cryptorand_uninit] on a NULL pointer returns at once: there is no
    structure to touch and the history of operating-system calls is
    unchanged, in every build configuration. *)
Theorem cryptorand_uninit_null (p : platform) (o : os) (h : history) :
  cryptorand_uninit p o None h = Some (None, h).
Proof. reflexivity. Qed.

(* ------------------------------------------------------------------------- *)
(** ** Further properties of generation                                       *)
(* ------------------------------------------------------------------------- *)

(** X1. Whatever the pointers, the result and the operating system's
    answers, [cryptorand_generate] changes no byte outside the [byteCount]
    bytes that start at [pBufferOut]. *)
Theorem generate_never_writes_outside (p : platform) (o : os)
    (pRNG : option (cryptorand p)) (m : mem) (pBufferOut byteCount : Z)
    (h : history) r m' h' :
  0 <= byteCount ->
  cryptorand_generate p o pRNG m pBufferOut byteCount h = Some (r, m', h') ->
  forall a, in_range pBufferOut byteCount a = false -> m' a = m a.
Proof.
  intros Hn E. destruct pRNG as [s|].
  - exact (cryptorand_generate_frame p o s m pBufferOut byteCount h r m' h' Hn E).
  - cbn in E. inversion E. reflexivity.
Qed.

Lemma generate_never_writes_outside_witness :
  exists m',
    cryptorand_generate PLATFORM_URANDOM os_all_good (Some (mk_urandom 0x3000))
      sentinel_mem 16 4 [] = Some (CRYPTORAND_SUCCESS, m', [fread 16 1 4 0x3000]) /\
    m' 16 = x5a /\ in_range 16 4 20 = false /\ m' 20 = sentinel_mem 20.
Proof.
  eexists. split; [reflexivity|]. split; [reflexivity|]. split; [reflexivity|].
  apply (generate_never_writes_outside PLATFORM_URANDOM os_all_good
           (Some (mk_urandom 0x3000)) sentinel_mem 16 4 []
           CRYPTORAND_SUCCESS _ [fread 16 1 4 0x3000]).
  - lia.
  - reflexivity.
  - reflexivity.
Defined.

(** X2. When the source and the buffer are both non-NULL, every result other
    than [CRYPTORAND_SUCCESS] leaves each of the [byteCount] requested bytes
    zero, whatever the backend stored before it failed. *)
Theorem generate_failure_zeroes_request (p : platform) (o : os)
    (s : cryptorand p) (m : mem) (pBufferOut byteCount : Z) (h : history)
    r m' h' :
  pBufferOut <> NULL ->
  cryptorand_generate p o (Some s) m pBufferOut byteCount h = Some (r, m', h') ->
  r <> CRYPTORAND_SUCCESS ->
  forall a, pBufferOut <= a < pBufferOut + byteCount -> m' a = x00.
Proof.
  intros Hbuf E Hr a Ha.
  apply (cryptorand_generate_failure_zeroes p o s m pBufferOut byteCount h
           r m' h' Hbuf E Hr).
  now apply in_range_spec.
Qed.

(** A Win32 system on which generation through BCrypt fails with a status. *)
Lemma generate_failure_zeroes_request_witness :
  exists m',
    cryptorand_generate PLATFORM_WIN32
      (fun _ _ => mk_response 0xC0000001 0 random_bytes)
      (Some (mk_win32 0x1000 0x2000 0x2000 0x2000 0x3000 0 0 0 0 0))
      sentinel_mem 16 4 []
      = Some (CRYPTORAND_ERROR, m', [call_BCryptGenRandom 0x2000 0x3000 16 4 0]) /\
    m' 17 = x00.
Proof.
  eexists. split; [reflexivity|].
  apply (generate_failure_zeroes_request PLATFORM_WIN32
           (fun _ _ => mk_response 0xC0000001 0 random_bytes)
           (mk_win32 0x1000 0x2000 0x2000 0x2000 0x3000 0 0 0 0 0)
           sentinel_mem 16 4 [] CRYPTORAND_ERROR _
           [call_BCryptGenRandom 0x2000 0x3000 16 4 0]).
  - unfold NULL. lia.
  - reflexivity.
  - discriminate.
  - lia.
Defined.

(** X3. When the structure holds a handle to generate from, a
    [CRYPTORAND_SUCCESS] means exactly one call asking for random bytes was
    made, and each of the [byteCount] bytes of the buffer is the byte that
    call delivered at that offset. *)
Theorem generate_success_is_backend_output (p : platform) (o : os)
    (s : cryptorand p) (m : mem) (pBufferOut byteCount : Z) (h : history)
    m' h' :
  0 <= byteCount ->
  (1 <= live_handles p s)%nat ->
  cryptorand_generate p o (Some s) m pBufferOut byteCount h
    = Some (CRYPTORAND_SUCCESS, m', h') ->
  exists c, h' = c :: h /\ generates c = true /\
    forall a, pBufferOut <= a < pBufferOut + byteCount ->
              m' a = out_bytes (o h c) (a - pBufferOut).
Proof.
  intros Hn Hlive E.
  destruct (cryptorand_generate_success_fills p o s m pBufferOut byteCount h
              m' h' Hn Hlive E) as (c & -> & Hfill).
  exists c. split; [reflexivity|]. split.
  - revert E. unfold cryptorand_generate.
    destruct p; cbn [generate_backend].
    + unfold cryptorand_generate__win32. monad_unfold.
      split_tests; intros E; inversion E; subst; try reflexivity.
      all: exfalso; eapply (f_equal (@List.length os_call)) in H1;
        cbn in H1; lia.
    + unfold cryptorand_generate__urandom, libc_fread. monad_unfold.
      split_tests; intros E; inversion E; subst; try reflexivity.
      all: exfalso; eapply (f_equal (@List.length os_call)) in H1;
        cbn in H1; lia.
    + cbn. split_tests; intros E; inversion E.
  - intros a Ha. apply Hfill. now apply in_range_spec.
Qed.

Lemma generate_success_is_backend_output_witness :
  exists m' c,
    cryptorand_generate PLATFORM_WIN32 os_all_good
      (Some (mk_win32 0 0 0 0 0 0x1100 0x2000 0x2000 0x2000 0x3000))
      sentinel_mem 16 4 [] = Some (CRYPTORAND_SUCCESS, m', [c]) /\
    generates c = true /\
    forall a, 16 <= a < 16 + 4 ->
              m' a = out_bytes (os_all_good [] c) (a - 16).
Proof.
  destruct (generate_success_is_backend_output PLATFORM_WIN32 os_all_good
              (mk_win32 0 0 0 0 0 0x1100 0x2000 0x2000 0x2000 0x3000)
              sentinel_mem 16 4 []
              (store_bytes sentinel_mem 16 4 random_bytes)
              [call_CryptGenRandom 0x2000 0x3000 4 16])
    as (c & Hc & Hg & Hfill).
  - lia.
  - cbn. lia.
  - reflexivity.
  - exists (store_bytes sentinel_mem 16 4 random_bytes), c.
    inversion Hc; subst. split; [reflexivity|]. split; [exact Hg | exact Hfill].
Defined.

(** X4. [cryptorand_generate] never retries and never splits a request: it
    makes at most one call to the operating system, and that call asks for
    random bytes.  [CRYPTORAND_ERROR] is only returned after such a call;
    the other failures ([CRYPTORAND_INVALID_ARGS], [CRYPTORAND_TOO_BIG],
    [CRYPTORAND_INVALID_OPERATION], [CRYPTORAND_NOT_IMPLEMENTED]) are
    returned without any call. *)
Theorem generate_calls_os_at_most_once (p : platform) (o : os)
    (pRNG : option (cryptorand p)) (m : mem) (pBufferOut byteCount : Z)
    (h : history) r m' h' :
  cryptorand_generate p o pRNG m pBufferOut byteCount h = Some (r, m', h') ->
  match r with
  | CRYPTORAND_SUCCESS => h' = h \/ exists c, h' = c :: h /\ generates c = true
  | CRYPTORAND_ERROR => exists c, h' = c :: h /\ generates c = true
  | _ => h' = h
  end.
Proof.
  unfold cryptorand_generate. destruct pRNG as [s|].
  - destruct p; cbn [generate_backend].
    + unfold cryptorand_generate__win32. monad_unfold.
      split_tests; intros E; inversion E; subst; cbn; eauto.
    + unfold cryptorand_generate__urandom, libc_fread. monad_unfold.
      split_tests; intros E; inversion E; subst; cbn; eauto.
    + monad_unfold. split_tests; intros E; inversion E; subst; cbn; eauto.
  - cbn. intros E; inversion E; subst. reflexivity.
Qed.

Lemma generate_calls_os_at_most_once_witness :
  exists c, [fread 16 1 4 0x3000] = [c] /\ generates c = true.
Proof.
  apply (generate_calls_os_at_most_once PLATFORM_URANDOM os_short_read
           (Some (mk_urandom 0x3000)) sentinel_mem 16 4 []
           CRYPTORAND_ERROR
           (CRYPTORAND_ZERO_MEMORY (store_bytes sentinel_mem 16 3 random_bytes) 16 4)
           [fread 16 1 4 0x3000]).
  reflexivity.
Defined.

(** X5. The results [cryptorand_generate] can return depend on the build:
    the Win32 build never returns [CRYPTORAND_INVALID_OPERATION] or
    [CRYPTORAND_NOT_IMPLEMENTED]; the /dev/urandom build never returns
    [CRYPTORAND_TOO_BIG] or [CRYPTORAND_NOT_IMPLEMENTED]; a build without a
    backend returns [CRYPTORAND_INVALID_ARGS] or
    [CRYPTORAND_NOT_IMPLEMENTED] only, never success. *)
Theorem generate_result_codes (p : platform) (o : os)
    (pRNG : option (cryptorand p)) (m : mem) (pBufferOut byteCount : Z)
    (h : history) r m' h' :
  cryptorand_generate p o pRNG m pBufferOut byteCount h = Some (r, m', h') ->
  In r match p with
       | PLATFORM_WIN32 =>
           [CRYPTORAND_SUCCESS; CRYPTORAND_ERROR; CRYPTORAND_INVALID_ARGS;
            CRYPTORAND_TOO_BIG]
       | PLATFORM_URANDOM =>
           [CRYPTORAND_SUCCESS; CRYPTORAND_ERROR; CRYPTORAND_INVALID_ARGS;
            CRYPTORAND_INVALID_OPERATION]
       | PLATFORM_NONE =>
           [CRYPTORAND_INVALID_ARGS; CRYPTORAND_NOT_IMPLEMENTED]
       end.
Proof.
  unfold cryptorand_generate. destruct pRNG as [s|].
  - destruct p; cbn [generate_backend].
    + unfold cryptorand_generate__win32. monad_unfold.
      split_tests; intros E; inversion E; subst; cbn; tauto.
    + unfold cryptorand_generate__urandom, libc_fread. monad_unfold.
      split_tests; intros E; inversion E; subst; cbn; tauto.
    + monad_unfold. split_tests; intros E; inversion E; subst; cbn; tauto.
  - intros E; inversion E; subst. destruct p; cbn; tauto.
Qed.

Lemma generate_result_codes_witness :
  In CRYPTORAND_TOO_BIG
     [CRYPTORAND_SUCCESS; CRYPTORAND_ERROR; CRYPTORAND_INVALID_ARGS;
      CRYPTORAND_TOO_BIG].
Proof.
  apply (generate_result_codes PLATFORM_WIN32 os_all_good (Some zero_win32)
           sentinel_mem 16 0x100000000 [] CRYPTORAND_TOO_BIG
           (CRYPTORAND_ZERO_MEMORY sentinel_mem 16 0x100000000) []).
  reflexivity.
Defined.

(** X6. A request for zero bytes on an open /dev/urandom stream always
    succeeds, whatever [fread] reports: one read of zero elements is issued
    and no byte of memory changes. *)
Theorem generate_urandom_zero_bytes (o : os) (s : cryptorand_urandom) (m : mem)
    (pBufferOut : Z) (h : history) :
  pBufferOut <> NULL ->
  pFile s <> NULL ->
  exists m',
    cryptorand_generate PLATFORM_URANDOM o (Some s) m pBufferOut 0 h
      = Some (CRYPTORAND_SUCCESS, m', fread pBufferOut 1 0 (pFile s) :: h) /\
    forall a, m' a = m a.
Proof.
  intros Hbuf Hfile.
  apply is_null_false in Hbuf. apply is_null_false in Hfile.
  eexists. split.
  - unfold cryptorand_generate. rewrite Hbuf. cbn [generate_backend].
    unfold cryptorand_generate__urandom, libc_fread, bind, syscall, ret.
    rewrite Hfile.
    assert (Z0 : forall r, fread_count r 0 = 0) by (intros r; unfold fread_count; lia).
    rewrite Z0. cbn. reflexivity.
  - intros a. apply store_bytes_outside.
    unfold in_range. destruct (pBufferOut <=? a) eqn:E1; [|reflexivity].
    apply Z.leb_le in E1. cbn. apply Z.ltb_ge. lia.
Qed.

Lemma generate_urandom_zero_bytes_witness :
  exists m',
    cryptorand_generate PLATFORM_URANDOM os_short_read (Some (mk_urandom 0x3000))
      sentinel_mem 16 0 []
      = Some (CRYPTORAND_SUCCESS, m', [fread 16 1 0 0x3000]) /\
    forall a, m' a = sentinel_mem a.
Proof.
  apply (generate_urandom_zero_bytes os_short_read (mk_urandom 0x3000)
           sentinel_mem 16 []).
  - unfold NULL. lia.
  - unfold NULL. cbn. lia.
Defined.

(** X15. Win32 with an algorithm handle: a request within the 32-bit cap
    goes to BCryptGenRandom, through the entry point held in the structure,
    with the buffer and the full, untruncated length; the result is
    [CRYPTORAND_SUCCESS] exactly when the status returned is 0.  The
    CryptGenRandom fields are not looked at. *)
Theorem generate_win32_bcrypt_dispatch (o : os) (s : cryptorand_win32) (m : mem)
    (pBufferOut byteCount : Z) (h : history) :
  pBufferOut <> NULL ->
  0 <= byteCount <= 0xFFFFFFFF ->
  hAlgorithm s <> NULL ->
  BCryptGenRandom s <> NULL ->
  let c := call_BCryptGenRandom (BCryptGenRandom s) (hAlgorithm s)
             pBufferOut byteCount 0 in
  exists m',
    cryptorand_generate PLATFORM_WIN32 o (Some s) m pBufferOut byteCount h
      = Some (if ret_val (o h c) =? 0 then CRYPTORAND_SUCCESS
              else CRYPTORAND_ERROR, m', c :: h).
Proof.
  intros Hbuf Hn Halg Hgen c. subst c.
  apply is_null_false in Hbuf. apply is_null_false in Halg.
  apply is_null_false in Hgen.
  unfold cryptorand_generate. rewrite Hbuf. cbn [generate_backend].
  unfold cryptorand_generate__win32.
  assert (Hcap : (byteCount >? 0xFFFFFFFF) = false).
  { apply not_true_is_false. intros C. apply Z.gtb_lt in C. lia. }
  rewrite Hcap, Halg. rewrite to_ULONG_small by lia.
  unfold call_proc. unfold is_null, NULL in Hgen. rewrite Hgen.
  unfold bind, syscall, ret. cbn.
  destruct (ret_val (o h _) =? 0); cbn; eexists; reflexivity.
Qed.

Lemma generate_win32_bcrypt_dispatch_witness :
  exists m',
    cryptorand_generate PLATFORM_WIN32 os_all_good
      (Some (mk_win32 0x1000 0x2000 0x2001 0x2002 0x3000 0 0 0 0 0))
      sentinel_mem 16 0xFFFFFFFF []
      = Some (CRYPTORAND_SUCCESS, m',
              [call_BCryptGenRandom 0x2002 0x3000 16 0xFFFFFFFF 0]).
Proof.
  apply (generate_win32_bcrypt_dispatch os_all_good
           (mk_win32 0x1000 0x2000 0x2001 0x2002 0x3000 0 0 0 0 0)
           sentinel_mem 16 0xFFFFFFFF []).
  - unfold NULL. lia.
  - lia.
  - unfold NULL. cbn. lia.
  - unfold NULL. cbn. lia.
Defined.

(** X16. Win32 with no algorithm handle but a provider handle: a request
    within the cap goes to CryptGenRandom with the full length, and the
    result is [CRYPTORAND_SUCCESS] exactly when the BOOL returned is not
    zero. *)
Theorem generate_win32_advapi_dispatch (o : os) (s : cryptorand_win32) (m : mem)
    (pBufferOut byteCount : Z) (h : history) :
  pBufferOut <> NULL ->
  0 <= byteCount <= 0xFFFFFFFF ->
  hAlgorithm s = NULL ->
  hProvider s <> NULL ->
  CryptGenRandom s <> NULL ->
  let c := call_CryptGenRandom (CryptGenRandom s) (hProvider s)
             byteCount pBufferOut in
  exists m',
    cryptorand_generate PLATFORM_WIN32 o (Some s) m pBufferOut byteCount h
      = Some (if ret_val (o h c) =? 0 then CRYPTORAND_ERROR
              else CRYPTORAND_SUCCESS, m', c :: h).
Proof.
  intros Hbuf Hn Halg Hprov Hgen c. subst c.
  apply is_null_false in Hbuf. apply is_null_true in Halg.
  apply is_null_false in Hprov. apply is_null_false in Hgen.
  unfold cryptorand_generate. rewrite Hbuf. cbn [generate_backend].
  unfold cryptorand_generate__win32.
  assert (Hcap : (byteCount >? 0xFFFFFFFF) = false).
  { apply not_true_is_false. intros C. apply Z.gtb_lt in C. lia. }
  rewrite Hcap, Halg, Hprov. rewrite to_ULONG_small by lia.
  unfold call_proc. unfold is_null, NULL in Hgen. rewrite Hgen.
  unfold bind, syscall, ret. cbn.
  destruct (ret_val (o h _) =? 0); cbn; eexists; reflexivity.
Qed.

Lemma generate_win32_advapi_dispatch_witness :
  exists m',
    cryptorand_generate PLATFORM_WIN32 os_nothing
      (Some (mk_win32 0 0 0 0 0 0x1100 0x2000 0x2001 0x2002 0x3000))
      sentinel_mem 16 64 []
      = Some (CRYPTORAND_ERROR, m', [call_CryptGenRandom 0x2002 0x3000 64 16]).
Proof.
  apply (generate_win32_advapi_dispatch os_nothing
           (mk_win32 0 0 0 0 0 0x1100 0x2000 0x2001 0x2002 0x3000)
           sentinel_mem 16 64 []).
  - unfold NULL. lia.
  - lia.
  - reflexivity.
  - unfold NULL. cbn. lia.
  - unfold NULL. cbn. lia.
Defined.

(* ------------------------------------------------------------------------- *)
(** ** Further properties of initialisation                                   *)
(* ------------------------------------------------------------------------- *)

Lemma init_backend_success_active (p : platform) (o : os) (s0 : cryptorand p)
    (h : history) :
  exists r s h',
    init_backend p o s0 h = Some (r, s, h') /\
    (r = CRYPTORAND_SUCCESS -> uninitialized p s = false) /\
    (r <> CRYPTORAND_SUCCESS -> uninitialized p (CRYPTORAND_ZERO_OBJECT p) = true).
Proof.
  destruct p; cbn [init_backend uninitialized].
  - destruct (cryptorand_init__win32_spec o s0 h)
      as (r & s & h' & E & [(Hr & Hs) | (Hr & Hz)]); exists r, s, h'.
    + split; [exact E|]. split; [|reflexivity]. intros _.
      destruct Hs as [B | A].
      * destruct B as (B1 & _). apply is_null_false in B1. now rewrite B1.
      * destruct A as (A1 & _). apply is_null_false in A1. rewrite A1.
        apply andb_false_r.
    + split; [exact E|]. split; [congruence | reflexivity].
  - unfold cryptorand_init__urandom. monad_unfold. split_tests;
      do 3 eexists; (split; [reflexivity|]); cbn; unfold is_null, NULL;
      split; auto; discriminate.
  - do 3 eexists. split; [reflexivity|]. split; [discriminate | reflexivity].
Qed.

(** X7. [cryptorand_init] on a non-NULL pointer returns
    [CRYPTORAND_SUCCESS] exactly when it leaves the structure set up for a
    service; with any other result the structure is in the uninitialized
    state. *)
Theorem init_success_iff_active (p : platform) (o : os) (s0 : cryptorand p)
    (h : history) :
  exists r s h',
    cryptorand_init p o (Some s0) h = Some (r, Some s, h') /\
    is_success r = negb (uninitialized p s).
Proof.
  unfold cryptorand_init, bind.
  destruct (init_backend_success_active p o (CRYPTORAND_ZERO_OBJECT p) h)
    as (r & s & h' & E & Hok & Hko).
  rewrite E. destruct (is_success r) eqn:Es; cbn.
  - exists r, s, h'. split; [reflexivity|].
    apply is_success_spec in Es. rewrite Es, (Hok Es). reflexivity.
  - exists r, (CRYPTORAND_ZERO_OBJECT p), h'. split; [reflexivity|].
    rewrite Es, Hko; [reflexivity|].
    intros C. apply is_success_spec in C. congruence.
Qed.

Lemma cryptorand_init__win32_advapi_calls (o : os) (h : history) r s h' :
  cryptorand_init__win32_advapi o h = Some (r, s, h') ->
  In (LoadLibraryW "advapi32.dll") h' /\
  hBcryptDLL s = 0 /\
  (forall c, In c h -> In c h') /\
  (forall c, In c h' -> In c h \/ acquires c = true).
Proof.
  unfold cryptorand_init__win32_advapi, cryptorand_init__win32_unusable.
  monad_unfold. split_tests; intros E; inversion E; subst; clear E.
  all: split; [cbn; tauto|]; split; [reflexivity|]; split;
    [intros c Hc; cbn; tauto|].
  all: intros c Hc; cbn in Hc;
    repeat (destruct Hc as [Hc | Hc]; [subst; right; reflexivity|]);
    left; exact Hc.
Qed.

Lemma cryptorand_init__win32_calls (o : os) (s0 : cryptorand_win32)
    (h : history) r s h' :
  cryptorand_init__win32 o s0 h = Some (r, s, h') ->
  In (LoadLibraryW "bcrypt.dll") h' /\
  (forall c, In c h' -> In c h \/ acquires c = true) /\
  ((r = CRYPTORAND_SUCCESS /\ hBcryptDLL s <> 0 /\
    (In (LoadLibraryW "advapi32.dll") h' -> In (LoadLibraryW "advapi32.dll") h)) \/
   (hBcryptDLL s = 0 /\ In (LoadLibraryW "advapi32.dll") h')).
Proof.
  split_init_win32; intros E.
  all: try (apply cryptorand_init__win32_advapi_calls in E;
            destruct E as (Ha & Hb & Hmono & Hacq);
            split; [apply Hmono; cbn; tauto|];
            split; [|right; split; assumption];
            intros c Hc; destruct (Hacq c Hc) as [Hc' | Hc']; [|right; exact Hc'];
            cbn in Hc';
            repeat (destruct Hc' as [Hc' | Hc']; [subst; right; reflexivity|]);
            left; exact Hc').
  inversion E; subst; clear E.
  split; [cbn; tauto|]. split.
  - intros c Hc; cbn in Hc;
      repeat (destruct Hc as [Hc | Hc]; [subst; right; reflexivity|]);
      left; exact Hc.
  - left. split; [reflexivity|]. split.
    + cbn. neq_hyps. assumption.
    + intros Hin. cbn in Hin.
      repeat (destruct Hin as [Hin | Hin]; [discriminate Hin|]). exact Hin.
Qed.

(** X8. On Win32, [cryptorand_init] always probes bcrypt.dll, and probes
    advapi32.dll only when the BCrypt attempt did not succeed: if the
    structure comes back set up for BCrypt, no [LoadLibraryW] of advapi32.dll
    was made by the call; in every other case, failure included, one was. *)
Theorem init_win32_probe_order (o : os) (s0 : cryptorand_win32) (h : history)
    r s h' :
  cryptorand_init PLATFORM_WIN32 o (Some s0) h = Some (r, Some s, h') ->
  In (LoadLibraryW "bcrypt.dll") h' /\
  (primary_active PLATFORM_WIN32 s = true ->
   In (LoadLibraryW "advapi32.dll") h' -> In (LoadLibraryW "advapi32.dll") h) /\
  (primary_active PLATFORM_WIN32 s = false ->
   In (LoadLibraryW "advapi32.dll") h').
Proof.
  unfold cryptorand_init, bind. cbn [init_backend CRYPTORAND_ZERO_OBJECT].
  destruct (cryptorand_init__win32 o zero_win32 h) as [[[r0 s1] h1]|] eqn:Eb;
    [|discriminate].
  destruct (cryptorand_init__win32_calls o zero_win32 h r0 s1 h1 Eb)
    as (Hb & _ & Hcase).
  destruct (is_success r0) eqn:Es; cbn; intros E; inversion E; subst; clear E.
  - split; [exact Hb|]. cbn [primary_active].
    destruct Hcase as [(_ & Hne & Hno) | (Hz & Hin)].
    + split; [intros _; exact Hno|].
      apply is_null_false in Hne. rewrite Hne. discriminate.
    + split; [|intros _; exact Hin].
      apply is_null_true in Hz. rewrite Hz. discriminate.
  - split; [exact Hb|]. cbn [primary_active]. cbn.
    split; [discriminate|]. intros _.
    destruct Hcase as [(Hr & _) | (_ & Hin)]; [|exact Hin].
    subst. discriminate Es.
Qed.

Lemma init_win32_probe_order_witness :
  exists s h',
    cryptorand_init PLATFORM_WIN32 os_bcrypt_without_exports
      (Some (mk_win32 1 2 3 4 5 6 7 8 9 10)) []
      = Some (CRYPTORAND_SUCCESS, Some s, h') /\
    primary_active PLATFORM_WIN32 s = false /\
    In (LoadLibraryW "bcrypt.dll") h' /\
    In (LoadLibraryW "advapi32.dll") h'.
Proof.
  eexists. eexists. split; [reflexivity|]. split; [reflexivity|].
  edestruct (init_win32_probe_order os_bcrypt_without_exports
               (mk_win32 1 2 3 4 5 6 7 8 9 10) []) as (Hb & _ & Ha).
  - reflexivity.
  - split; [exact Hb|]. apply Ha. reflexivity.
Defined.

(** X9. [cryptorand_init] only acquires: every call it makes loads a
    module, resolves an entry point or opens a provider, context or stream.
    It never unloads a module, closes anything or asks for random bytes,
    also when an attempt fails half-way. *)
Theorem init_only_acquires (p : platform) (o : os)
    (pRNG : option (cryptorand p)) (h : history) r pRNG' h' :
  cryptorand_init p o pRNG h = Some (r, pRNG', h') ->
  forall c, In c h' -> In c h \/ acquires c = true.
Proof.
  unfold cryptorand_init, bind. destruct pRNG as [s0|].
  - destruct (init_backend p o (CRYPTORAND_ZERO_OBJECT p) h)
      as [[[r0 s1] h1]|] eqn:Eb; [|discriminate].
    assert (Hacq : forall c, In c h1 -> In c h \/ acquires c = true).
    { destruct p; cbn [init_backend] in Eb.
      - apply cryptorand_init__win32_calls in Eb. tauto.
      - revert Eb. unfold cryptorand_init__urandom. monad_unfold.
        split_tests; intros E; inversion E; subst; intros c Hc; cbn in Hc;
          (destruct Hc as [Hc | Hc]; [subst; right; reflexivity | left; exact Hc]).
      - inversion Eb; subst. tauto. }
    destruct (is_success r0); cbn; intros E; inversion E; subst; exact Hacq.
  - cbn. intros E; inversion E; subst. tauto.
Qed.

Lemma init_only_acquires_witness :
  In (GetProcAddress 0x1000 "BCryptGenRandom") [] \/
  acquires (GetProcAddress 0x1000 "BCryptGenRandom") = true.
Proof.
  apply (init_only_acquires PLATFORM_WIN32 os_bcrypt_without_exports
           (Some zero_win32) [] CRYPTORAND_SUCCESS
           (Some (mk_win32 0 0 0 0 0 0x1100 0x2000 0x2000 0x2000 0x3000))
           [call_CryptAcquireContextW 0x2000 1 0xF0000040;
            GetProcAddress 0x1100 "CryptGenRandom";
            GetProcAddress 0x1100 "CryptReleaseContext";
            GetProcAddress 0x1100 "CryptAcquireContextW";
            LoadLibraryW "advapi32.dll";
            GetProcAddress 0x1000 "BCryptGenRandom";
            GetProcAddress 0x1000 "BCryptCloseAlgorithmProvider";
            GetProcAddress 0x1000 "BCryptOpenAlgorithmProvider";
            LoadLibraryW "bcrypt.dll"]).
  - reflexivity.
  - cbn. tauto.
Defined.

(* ------------------------------------------------------------------------- *)
(** ** Further properties of release and of whole lifecycles                  *)
(* ------------------------------------------------------------------------- *)

(** X10. Releasing a source set up for BCrypt closes the algorithm provider
    first and unloads bcrypt.dll after it, each exactly once and with the
    handles held in the structure; nothing else is called. *)
Theorem uninit_win32_bcrypt_order (o : os) (s : cryptorand_win32) (h : history) :
  win32_bcrypt s ->
  hAlgorithm s <> NULL ->
  cryptorand_uninit PLATFORM_WIN32 o (Some s) h
    = Some (Some zero_win32,
            FreeLibrary (hBcryptDLL s)
            :: call_BCryptCloseAlgorithmProvider
                 (BCryptCloseAlgorithmProvider s) (hAlgorithm s) 0
            :: h).
Proof.
  intros (B1 & _ & B3 & _ & B5 & _ & _ & _ & B9) Halg.
  unfold cryptorand_uninit. cbn [uninit_backend CRYPTORAND_ZERO_OBJECT].
  unfold cryptorand_uninit__win32, call_proc.
  apply is_null_false in B1. apply is_null_false in Halg.
  apply Z.eqb_neq in B3.
  rewrite B1, Halg, B3, B5. reflexivity.
Qed.

Lemma uninit_win32_bcrypt_order_witness :
  cryptorand_uninit PLATFORM_WIN32 os_all_good
    (Some (mk_win32 0x1000 0x2000 0x2001 0x2002 0x3000 0 0 0 0 0)) []
  = Some (Some zero_win32,
          [FreeLibrary 0x1000; call_BCryptCloseAlgorithmProvider 0x2001 0x3000 0]).
Proof.
  apply (uninit_win32_bcrypt_order os_all_good
           (mk_win32 0x1000 0x2000 0x2001 0x2002 0x3000 0 0 0 0 0) []).
  - unfold win32_bcrypt. cbn. repeat split; lia.
  - unfold NULL. cbn. lia.
Defined.

(** X11. Releasing a source set up for CryptGenRandom releases the context
    first and unloads advapi32.dll after it, each exactly once and with the
    handles held in the structure; nothing else is called. *)
Theorem uninit_win32_advapi_order (o : os) (s : cryptorand_win32) (h : history) :
  win32_advapi s ->
  hProvider s <> NULL ->
  cryptorand_uninit PLATFORM_WIN32 o (Some s) h
    = Some (Some zero_win32,
            FreeLibrary (hAdvapiDLL s)
            :: call_CryptReleaseContext (CryptReleaseContext s) (hProvider s) 0
            :: h).
Proof.
  intros (A1 & _ & A3 & _ & A5 & _ & _ & _ & A9) Hprov.
  unfold cryptorand_uninit. cbn [uninit_backend CRYPTORAND_ZERO_OBJECT].
  unfold cryptorand_uninit__win32, call_proc.
  apply is_null_false in A1. apply is_null_false in Hprov.
  apply Z.eqb_neq in A3.
  rewrite A1, Hprov, A3, A5, A9. reflexivity.
Qed.

Lemma uninit_win32_advapi_order_witness :
  cryptorand_uninit PLATFORM_WIN32 os_all_good
    (Some (mk_win32 0 0 0 0 0 0x1100 0x2000 0x2001 0x2002 0x3000)) []
  = Some (Some zero_win32,
          [FreeLibrary 0x1100; call_CryptReleaseContext 0x2001 0x3000 0]).
Proof.
  apply (uninit_win32_advapi_order os_all_good
           (mk_win32 0 0 0 0 0 0x1100 0x2000 0x2001 0x2002 0x3000) []).
  - unfold win32_advapi. cbn. repeat split; lia.
  - unfold NULL. cbn. lia.
Defined.

(** X12. With /dev/urandom, initialize followed by release opens the device
    once, for binary reading, and closes exactly the stream that was opened;
    when the open fails nothing is closed.  Either way the structure ends up
    blank and the memory is as it was. *)
Theorem urandom_init_uninit_balanced (o : os) (s0 : cryptorand_urandom)
    (m : mem) (h : history) :
  let opened := ret_val (o h (fopen "/dev/urandom" "rb")) in
  run PLATFORM_URANDOM o [op_init; op_uninit] (s0, m) h
    = Some (zero_urandom, m,
            if is_null opened
            then fopen "/dev/urandom" "rb" :: h
            else fclose opened :: fopen "/dev/urandom" "rb" :: h).
Proof.
  cbn [run step]. unfold cryptorand_init, cryptorand_uninit.
  cbn [init_backend uninit_backend CRYPTORAND_ZERO_OBJECT].
  unfold cryptorand_init__urandom, cryptorand_uninit__urandom.
  monad_unfold. cbn.
  destruct (ret_val (o h (fopen "/dev/urandom" "rb")) =? 0) eqn:E; cbn;
    unfold cryptorand_uninit__urandom; monad_unfold; cbn; rewrite ?E;
    reflexivity.
Qed.

(** X13. With /dev/urandom, after a release the source can no longer
    generate: the next request returns [CRYPTORAND_INVALID_OPERATION] without
    touching the operating system and with the requested bytes zeroed. *)
Theorem urandom_generate_after_uninit (o : os) (s : cryptorand_urandom)
    (m : mem) (pBufferOut byteCount : Z) (h : history) :
  pBufferOut <> NULL ->
  exists s' h1,
    cryptorand_uninit PLATFORM_URANDOM o (Some s) h = Some (Some s', h1) /\
    cryptorand_generate PLATFORM_URANDOM o (Some s') m pBufferOut byteCount h1
      = Some (CRYPTORAND_INVALID_OPERATION,
              CRYPTORAND_ZERO_MEMORY m pBufferOut byteCount, h1).
Proof.
  intros Hbuf.
  destruct (cryptorand_uninit_spec PLATFORM_URANDOM o s h I) as (h1 & E).
  exists zero_urandom, h1. split; [exact E|].
  now apply generate_urandom_blank_source_fails.
Qed.

Lemma urandom_generate_after_uninit_witness :
  exists s' h1,
    cryptorand_uninit PLATFORM_URANDOM os_all_good (Some (mk_urandom 0x3000)) []
      = Some (Some s', h1) /\
    cryptorand_generate PLATFORM_URANDOM os_all_good (Some s') sentinel_mem 16 4 h1
      = Some (CRYPTORAND_INVALID_OPERATION,
              CRYPTORAND_ZERO_MEMORY sentinel_mem 16 4, h1).
Proof.
  apply (urandom_generate_after_uninit os_all_good (mk_urandom 0x3000)
           sentinel_mem 16 4 []).
  unfold NULL. lia.
Defined.

(** X14. The test program never faults, whatever the build, the operating
    system's answers and the garbage its local [rng] starts with: it returns
    0, leaves [rng] blank, and changes no byte outside its 64-byte array. *)
Theorem main_returns (p : platform) (o : os) (rng : cryptorand p) (m : mem)
    (pRandom : Z) (h : history) :
  exists m' h',
    main p o rng m pRandom h = Some (0, (CRYPTORAND_ZERO_OBJECT p, m'), h') /\
    forall a, in_range pRandom 64 a = false -> m' a = m a.
Proof.
  unfold main. unfold bind at 1. cbn [step]. unfold bind at 1.
  destruct (cryptorand_init_spec p o rng h) as (r & s1 & h1 & E1 & Hs1 & _).
  rewrite E1. cbn [ret snd]. unfold bind at 1. cbn [step]. unfold bind at 1.
  destruct (cryptorand_generate_returns p o s1
              (CRYPTORAND_ZERO_MEMORY m pRandom 64) pRandom 64 h1 Hs1)
    as (r2 & m2 & h2 & E2).
  rewrite E2. cbn [ret snd]. unfold bind at 1. cbn [step]. unfold bind at 1.
  destruct (cryptorand_uninit_spec p o s1 h2 (source_inv_closable p s1 Hs1))
    as (h3 & E3).
  rewrite E3. cbn [ret]. exists m2, h3. split; [reflexivity|].
  intros a Ha.
  rewrite (cryptorand_generate_frame p o s1 _ pRandom 64 h1 r2 m2 h2
             ltac:(lia) E2 a Ha).
  now apply zero_memory_outside.
Qed.

(** X17. [cryptorand_uninit] only releases: it makes at most three calls
    to the operating system, each of which closes a provider, context or stream
    or unloads a module.  It never loads, opens or generates. *)
Theorem uninit_only_releases (p : platform) (o : os)
    (pRNG : option (cryptorand p)) (h : history) pRNG' h' :
  cryptorand_uninit p o pRNG h = Some (pRNG', h') ->
  (exists calls, h' = calls ++ h /\ (List.length calls <= 3)%nat) /\
  forall c, In c h' -> In c h \/ releases c = true.
Proof.
  unfold cryptorand_uninit. destruct pRNG as [s|].
  - destruct p; cbn [uninit_backend].
    + unfold cryptorand_uninit__win32. monad_unfold.
      split_tests; intros E; inversion E; subst; clear E.
      all: split;
        [ first [ exists []; split; [reflexivity | cbn; lia]
                | eexists [_]; split; [reflexivity | cbn; lia]
                | eexists [_; _]; split; [reflexivity | cbn; lia]
                | eexists [_; _; _]; split; [reflexivity | cbn; lia] ]
        | intros c Hc; cbn in Hc;
          repeat (destruct Hc as [Hc | Hc]; [subst; right; reflexivity|]);
          left; exact Hc ].
    + unfold cryptorand_uninit__urandom. monad_unfold.
      split_tests; intros E; inversion E; subst; clear E.
      all: split;
        [ first [ exists []; split; [reflexivity | cbn; lia]
                | eexists [_]; split; [reflexivity | cbn; lia] ]
        | intros c Hc; cbn in Hc;
          repeat (destruct Hc as [Hc | Hc]; [subst; right; reflexivity|]);
          left; exact Hc ].
    + cbn. intros E; inversion E; subst.
      split; [exists []; split; [reflexivity | cbn; lia] | tauto].
  - cbn. intros E; inversion E; subst.
    split; [exists []; split; [reflexivity | cbn; lia] | tauto].
Qed.

Lemma uninit_only_releases_witness :
  (exists calls,
     [FreeLibrary 0x1100; call_CryptReleaseContext 0x2001 0x3000 0] = calls ++ [] /\
     (List.length calls <= 3)%nat) /\
  forall c, In c [FreeLibrary 0x1100; call_CryptReleaseContext 0x2001 0x3000 0] ->
            In c [] \/ releases c = true.
Proof.
  apply (uninit_only_releases PLATFORM_WIN32 os_all_good
           (Some (mk_win32 0 0 0 0 0 0x1100 0x2000 0x2001 0x2002 0x3000)) []
           (Some zero_win32)).
  reflexivity.
Defined.
